(** * hasura-vote: a shallow embedding of the React web app and its cloud function

    The repository has three pieces of code:
    - [Auth.js]: the authentication wrapper (Firebase sign-in, token refresh
      listener, sign-out, rendering);
    - [App.js]: the data component (Apollo links, subscription, buttons);
    - the cloud function [processSignUp] (index.js of the Firebase project).

    JavaScript values are embedded as [jsval], asynchronous code as programs of
    a small free monad ([prog]) whose awaits are answered by an environment,
    React elements as a tree ([Node]). *)

From Stdlib Require Import ZArith List Bool Ascii String.
From stdpp Require Import gmap strings list pretty.

Open Scope string_scope.
Open Scope Z_scope.
Local Set Warnings "-register-all".

(* ===================================================================== *)
(** ** JavaScript values *)
(* ===================================================================== *)

Module JS.

(** The JavaScript values the code handles. Numbers are the integers the
    GraphQL [Int] type and [Date.getTime()] produce. An object keeps its
    properties in insertion order; a function is known by its name only. *)
Inductive jsval : Type :=
| VUndefined
| VNull
| VBool (b : bool)
| VNum (n : Z)
| VStr (s : string)
| VObj (props : list (string * jsval))
| VArr (items : list jsval)
| VFun (fname : string).

(** [if (v)]: JavaScript's ToBoolean. *)
Definition truthy (v : jsval) : bool :=
  match v with
  | VUndefined | VNull => false
  | VBool b => b
  | VNum n => negb (n =? 0)
  | VStr s => negb (String.eqb s "")
  | VObj _ | VArr _ | VFun _ => true
  end.

(** [props[key]] on the property list of an object: [undefined] when the
    key is absent. *)
Fixpoint lookup_prop (key : string) (props : list (string * jsval)) : jsval :=
  match props with
  | [] => VUndefined
  | (k, v) :: rest => if String.eqb k key then v else lookup_prop key rest
  end.

(** [key in obj]. *)
Definition has_prop (key : string) (props : list (string * jsval)) : Prop :=
  In key (map fst props).

(** [obj[key] = v] on a property list: replaces in place, appends when new. *)
Fixpoint set_prop (key : string) (v : jsval) (props : list (string * jsval))
  : list (string * jsval) :=
  match props with
  | [] => [(key, v)]
  | (k, w) :: rest =>
      if String.eqb k key then (k, v) :: rest else (k, w) :: set_prop key v rest
  end.

(** A template literal [`${v}`] on the values that reach one here. *)
Definition template (v : jsval) : string :=
  match v with
  | VStr s => s
  | VNum n => pretty n
  | VBool true => "true"
  | VBool false => "false"
  | VNull => "null"
  | VUndefined => "undefined"
  | VObj _ => "[object Object]"
  | VArr _ => ""
  | VFun f => f
  end.

End JS.
Export JS.

(* ===================================================================== *)
(** ** Asynchronous programs *)
(* ===================================================================== *)

(** How a promise settles, and how a call that may throw returns. *)
Inductive settled (A : Type) : Type :=
| Fulfilled (a : A)
| Rejected (reason : jsval).
Arguments Fulfilled {A} a.
Arguments Rejected {A} reason.

Module Async.
Section Prog.

(** [action X]: a synchronous call of the outside world that returns an [X];
    [promise X]: a call that returns a promise of an [X]. *)
Variables (action promise : Type -> Type).

(** The body of an (async) function: it returns, throws, performs a
    synchronous call and goes on, or awaits a promise and goes on with the way
    it settled. *)
Inductive prog (A : Type) : Type :=
| Ret (a : A)
| Throw (e : jsval)
| Sync {X : Type} (a : action X) (k : X -> prog A)
| Await {X : Type} (p : promise X) (k : settled X -> prog A).
Arguments Ret {A} a.
Arguments Throw {A} e.
Arguments Sync {A X} a k.
Arguments Await {A X} p k.

Fixpoint bind {A B : Type} (m : prog A) (f : A -> prog B) : prog B :=
  match m with
  | Ret a => f a
  | Throw e => Throw e
  | Sync a k => Sync a (fun x => bind (k x) f)
  | Await p k => Await p (fun r => bind (k r) f)
  end.

(** [try { m } catch (e) { h e }]. *)
Fixpoint try_catch {A : Type} (m : prog A) (h : jsval -> prog A) : prog A :=
  match m with
  | Ret a => Ret a
  | Throw e => h e
  | Sync a k => Sync a (fun x => try_catch (k x) h)
  | Await p k => Await p (fun r => try_catch (k r) h)
  end.

(** [f(...)] for a synchronous call. *)
Definition call {X : Type} (a : action X) : prog X := Sync a Ret.

(** [f(...)] for a synchronous call that may throw: its value, or a throw of
    what it threw. *)
Definition call_or_throw {X : Type} (a : action (settled X)) : prog X :=
  Sync a (fun r => match r with
                   | Fulfilled x => Ret x
                   | Rejected e => Throw e
                   end).

(** [await p]: the value of a fulfilled promise, a throw of the reason of a
    rejected one. *)
Definition await {X : Type} (p : promise X) : prog X :=
  Await p (fun r => match r with
                    | Fulfilled x => Ret x
                    | Rejected e => Throw e
                    end).

(** [p.then(f)] and [p.catch(g)] on promise chains: [f] runs on fulfilment
    only, [g] on the rejection of anything before it in the chain. *)
Definition then_ {A B : Type} (m : prog A) (f : A -> prog B) : prog B := bind m f.
Definition catch_ {A : Type} (m : prog A) (g : jsval -> prog A) : prog A :=
  try_catch m g.

(** *** Running a program in a world *)

Variable W : Type.
(** What a synchronous call does to the world and returns. *)
Variable perform : forall X, action X -> W -> X * W.
(** How the world settles a promise. *)
Variable settle : forall X, promise X -> W -> settled X * W.

(** The whole run: every await is answered by the world. The result is how
    the promise of the async function settles. *)
Fixpoint run {A : Type} (m : prog A) (w : W) : settled A * W :=
  match m with
  | Ret a => (Fulfilled a, w)
  | Throw e => (Rejected e, w)
  | Sync a k => let '(x, w') := perform _ a w in run (k x) w'
  | Await p k => let '(r, w') := settle _ p w in run (k r) w'
  end.

(** Where a program stands once its synchronous prefix has run: finished, or
    suspended at an await. *)
Inductive stage (A : Type) : Type :=
| Finished (r : settled A)
| Suspended {X : Type} (p : promise X) (k : settled X -> prog A).
Arguments Finished {A} r.
Arguments Suspended {A X} p k.

(** Runs up to the first await (or to the end). *)
Fixpoint run_sync {A : Type} (m : prog A) (w : W) : stage A * W :=
  match m with
  | Ret a => (Finished (Fulfilled a), w)
  | Throw e => (Finished (Rejected e), w)
  | Sync a k => let '(x, w') := perform _ a w in run_sync (k x) w'
  | Await p k => (Suspended p k, w)
  end.

End Prog.

Arguments Ret {action promise A} a.
Arguments Throw {action promise A} e.
Arguments Sync {action promise A X} a k.
Arguments Await {action promise A X} p k.
Arguments bind {action promise A B} m f.
Arguments try_catch {action promise A} m h.
Arguments call {action promise X} a.
Arguments call_or_throw {action promise X} a.
Arguments await {action promise X} p.
Arguments then_ {action promise A B} m f.
Arguments catch_ {action promise A} m g.
Arguments run {action promise W} perform settle {A} m w.
Arguments run_sync {action promise W} perform {A} m w.
Arguments Finished {action promise A} r.
Arguments Suspended {action promise A X} p k.

End Async.
Export Async.

Declare Scope prog_scope.
Delimit Scope prog_scope with prog.
Notation "'let*' x ':=' m 'in' k" := (bind m (fun x => k))
  (at level 10, x name, m at level 100, k at level 200) : prog_scope.
Notation "m ';;' k" := (bind m (fun _ => k))
  (at level 100, k at level 200, right associativity) : prog_scope.

(* ===================================================================== *)
(** ** GraphQL documents *)
(* ===================================================================== *)

Module GraphQL.

(** The part of the GraphQL AST that the [gql] documents of [App.js] use. *)
Inductive ValueNode : Type :=
| Variable_ (vname : string)
| IntValue (n : Z)
| EnumValue (e : string)
| ObjectValue (fields : list (string * ValueNode)).

Inductive SelectionNode : Type :=
| Field (fname : string) (arguments : list (string * ValueNode))
        (selectionSet : list SelectionNode).

Record VariableDefinitionNode : Type := {
  variable : string;
  type : string
}.

(** A definition of a document. [operation] is a property of operation
    definitions only: on a fragment definition it is [undefined] ([None]). *)
Record DefinitionNode : Type := {
  kind : string;
  operation : option string;
  name_value : string;
  variableDefinitions : list VariableDefinitionNode;
  selections : list SelectionNode
}.

Record DocumentNode : Type := {
  definitions : list DefinitionNode
}.

(** [gql`op name(vars) { ... }`] for a document of one operation. *)
Definition gql (op name : string) (vars : list VariableDefinitionNode)
           (sel : list SelectionNode) : DocumentNode :=
  {| definitions :=
       [ {| kind := "OperationDefinition"; operation := Some op; name_value := name;
            variableDefinitions := vars; selections := sel |} ] |}.

(** The request a link receives ([Operation] of apollo-link). *)
Record Operation : Type := {
  query : DocumentNode;
  op_variables : jsval
}.

End GraphQL.
Export GraphQL.

(* ===================================================================== *)
(** ** Firebase users and the authentication state *)
(* ===================================================================== *)

Record User : Type := {
  uid : string;
  displayName : option string
}.

(** The three shapes of the [authState] object of [Auth.js]:
    [{ status: 'loading' }], [{ status: 'out' }] and
    [{ status: 'in', user, token }]. *)
Inductive AuthState : Type :=
| Loading
| Out
| In_ (user : User) (token : string).

(** [authState.status] *)
Definition status (a : AuthState) : string :=
  match a with
  | Loading => "loading"
  | Out => "out"
  | In_ _ _ => "in"
  end.

(** [authState.user]: [undefined] ([None]) on the shapes without the property. *)
Definition user (a : AuthState) : option User :=
  match a with
  | In_ u _ => Some u
  | _ => None
  end.

(** [authState.token] *)
Definition token (a : AuthState) : jsval :=
  match a with
  | In_ _ t => VStr t
  | _ => VUndefined
  end.

(* ===================================================================== *)
(** ** React elements *)
(* ===================================================================== *)

Module React.

(** What an [onClick] is bound to. *)
Inductive Handler : Type :=
| mutate                (* the function a [Mutation] passes to its child *)
| onSignOut             (* [signOut] of [Auth] *)
| onSignInWithGoogle.   (* [signInWithGoogle] of [Auth] *)

(** Rendered output. [Mutation] is react-apollo's component with its
    [mutation] and [variables] props and the element its child function
    returns; [AppElement] is [<App authState={...} />]. *)
Inductive Node : Type :=
| null
| Text (s : string)
| Fragment (children : list Node)
| Element (tag : string) (props : list (string * string)) (children : list Node)
| Button (onClick : Handler) (label : string)
| Mutation (mutation : DocumentNode) (variables : list (string * jsval))
           (child : Node)
| AppElement (authState : AuthState).

End React.
Export React.

(** Errors thrown by the JavaScript runtime on [undefined.property]. *)
Definition TypeError (message : string) : jsval :=
  VObj [("name", VStr "TypeError"); ("message", VStr message)].

(** Synchronous code that may throw: sequencing, and [Array.prototype.map]
    with a callback that may throw. *)
Definition and_then {A B : Type} (r : settled A) (f : A -> settled B) : settled B :=
  match r with
  | Fulfilled a => f a
  | Rejected e => Rejected e
  end.

Fixpoint array_map {A B : Type} (f : A -> settled B) (l : list A) : settled (list B) :=
  match l with
  | [] => Fulfilled []
  | x :: rest =>
      and_then (f x) (fun y =>
      and_then (array_map f rest) (fun ys => Fulfilled (y :: ys)))
  end.

(* ===================================================================== *)
(** ** App.js: the data component *)
(* ===================================================================== *)

Module AppJs.

Definition order_by_vote_count : list (string * ValueNode) :=
  [("order_by", ObjectValue [("vote_count", EnumValue "desc")])].

Definition name_variable : list VariableDefinitionNode :=
  [ {| variable := "name"; type := "String!" |} ].

Definition PL_SUB : DocumentNode :=
  gql "subscription" "PL" []
    [ Field "programming_language" order_by_vote_count
        [ Field "name" [] []; Field "vote_count" [] [] ] ].

Definition PL_WITH_LOVE_SUB : DocumentNode :=
  gql "subscription" "PL_WITH_LOVE" [ {| variable := "userId"; type := "String!" |} ]
    [ Field "programming_language" order_by_vote_count
        [ Field "name" [] [];
          Field "vote_count" [] [];
          Field "lovedLanguagesByname_aggregate"
            [("where", ObjectValue [("user_id", ObjectValue [("_eq", Variable_ "userId")])])]
            [ Field "aggregate" [] [ Field "count" [] [] ] ] ] ].

Definition VOTE_MUTATION : DocumentNode :=
  gql "mutation" "Vote" name_variable
    [ Field "update_programming_language"
        [ ("_inc", ObjectValue [("vote_count", IntValue 1)]);
          ("where", ObjectValue [("name", ObjectValue [("_eq", Variable_ "name")])]) ]
        [ Field "returning" [] [ Field "vote_count" [] [] ] ] ].

Definition LOVE_MUTATION : DocumentNode :=
  gql "mutation" "Love" name_variable
    [ Field "insert_loved_language"
        [ ("objects", ObjectValue [("name", Variable_ "name")]) ]
        [ Field "affected_rows" [] [] ] ].

Definition UNLOVE_MUTATION : DocumentNode :=
  gql "mutation" "Unlove" name_variable
    [ Field "delete_loved_language"
        [ ("where", ObjectValue [("name", ObjectValue [("_eq", Variable_ "name")])]) ]
        [ Field "affected_rows" [] [] ] ].

(** The [gql] constants of the module, in the order of the file. *)
Definition static_documents : list DocumentNode :=
  [PL_SUB; PL_WITH_LOVE_SUB; VOTE_MUTATION; LOVE_MUTATION; UNLOVE_MUTATION].

(** *** Links *)

Record HttpLinkConfig : Type := {
  http_uri : string;
  http_headers : gmap string string
}.

Record ConnectionParams : Type := {
  headers_param : gmap string string
}.

Record WebSocketOptions : Type := {
  reconnect : bool;
  connectionParams : ConnectionParams
}.

Record WebSocketLinkConfig : Type := {
  ws_uri : string;
  options : WebSocketOptions
}.

(** apollo-link's links as far as [App] builds them: the two terminating
    links and [split(test, left, right)]. *)
Inductive ApolloLink : Type :=
| HttpLink (cfg : HttpLinkConfig)
| WebSocketLink (cfg : WebSocketLinkConfig)
| split (test : Operation -> settled bool) (lft rgt : ApolloLink).

(** [link.request(operation)]: the terminating link that sends the request.
    [split] hands it to its left link when [test] holds of it and to its
    right link otherwise; a throw of [test] fails the request. *)
Fixpoint request (l : ApolloLink) (op : Operation) : settled ApolloLink :=
  match l with
  | split test lft rgt =>
      and_then (test op) (fun b => if b then request lft op else request rgt op)
  | _ => Fulfilled l
  end.

(** [new InMemoryCache()] *)
Inductive ApolloCache : Type := InMemoryCache.

Record ApolloClient : Type := {
  client_link : ApolloLink;
  cache : ApolloCache
}.

(** *** The subscription's result and its rendering *)

Record AggregateFields : Type := { count : Z }.
Record Aggregate : Type := { aggregate : AggregateFields }.

(** A row of [programming_language]. The aggregate is selected by
    [PL_WITH_LOVE_SUB] only: under [PL_SUB] the property is [undefined]. *)
Record ProgrammingLanguage : Type := {
  name : string;
  vote_count : Z;
  lovedLanguagesByname_aggregate : option Aggregate
}.

Record Data : Type := {
  programming_language : list ProgrammingLanguage
}.

Record ApolloError : Type := { message : string }.

(** The argument of the child function of [Subscription]. *)
Record SubscriptionResult : Type := {
  data : option Data;
  loading : bool;
  error : option ApolloError
}.

(** The callback of [data.programming_language.map]. *)
Definition renderLanguage (isIn : bool) (pl : ProgrammingLanguage) : settled Node :=
  let name := name pl in
  let vote_count := vote_count pl in
  and_then
    (if isIn then
       match lovedLanguagesByname_aggregate pl with
       | Some agg =>
           let isLoved := count (aggregate agg) =? 1 in
           if isLoved then
             Fulfilled (Mutation UNLOVE_MUTATION [("name", VStr name)]
                          (Button mutate "Unlove"))
           else
             Fulfilled (Mutation LOVE_MUTATION [("name", VStr name)]
                          (Button mutate "Love"))
       | None => Rejected (TypeError "Cannot read property 'aggregate' of undefined")
       end
     else Fulfilled null)
    (fun content =>
       Fulfilled
         (Element "li" [("key", name)]
            [ Element "span" [] [ Text (name +:+ " - " +:+ pretty vote_count) ];
              Element "span" []
                [ Mutation VOTE_MUTATION [("name", VStr name)] (Button mutate "Vote");
                  content ] ])).

(** The child function of [Subscription]: [({ data, loading, error }) => ...]. *)
Definition renderSubscription (isIn : bool) (result : SubscriptionResult)
  : settled Node :=
  if loading result then Fulfilled (Text "loading...")
  else
    match error result with
    | Some err => Fulfilled (Text (message err))
    | None =>
        match data result with
        | Some d =>
            and_then (array_map (renderLanguage isIn) (programming_language d))
              (fun items => Fulfilled (Element "ul" [("className", "pl-list")] items))
        | None =>
            Rejected (TypeError "Cannot read property 'programming_language' of undefined")
        end
    end.

(** *** The component *)

(** What [App] returns: [<ApolloProvider client>] around one [<Subscription>]. *)
Record AppTree : Type := {
  client_prop : ApolloClient;
  subscription : DocumentNode;
  variables : jsval;
  children : SubscriptionResult -> settled Node
}.

Section Component.

(** [getMainDefinition] of apollo-utilities, imported by [App.js]; it
    throws on a document without operation or fragment. *)
Variable getMainDefinition : DocumentNode -> settled DefinitionNode.

Variable authState : AuthState.

Definition isIn : bool := String.eqb (status authState) "in".

Definition headers : gmap string string :=
  if isIn then {[ "Authorization" := "Bearer " +:+ template (token authState) ]}
  else ∅.

Definition httpLink : ApolloLink :=
  HttpLink {| http_uri := "https://your-heroku-domain/v1alpha1/graphql";
              http_headers := headers |}.

Definition wsLink : ApolloLink :=
  WebSocketLink
    {| ws_uri := "wss://your-heroku-domain/v1alpha1/graphql";
       options := {| reconnect := true;
                     connectionParams := {| headers_param := headers |} |} |}.

(** The first argument of [split]. *)
Definition test (op : Operation) : settled bool :=
  and_then (getMainDefinition (query op)) (fun def =>
    Fulfilled (String.eqb (kind def) "OperationDefinition"
               && match operation def with
                  | Some o => String.eqb o "subscription"
                  | None => false
                  end)).

Definition link : ApolloLink := split test wsLink httpLink.

Definition client : ApolloClient :=
  {| client_link := link; cache := InMemoryCache |}.

Definition App : AppTree :=
  {| client_prop := client;
     subscription := if isIn then PL_WITH_LOVE_SUB else PL_SUB;
     variables :=
       if isIn then
         match user authState with
         | Some u => VObj [("userId", VStr (uid u))]
         | None => VUndefined  (* no state of status 'in' lacks its user *)
         end
       else VNull;
     children := renderSubscription isIn |}.

End Component.

End AppJs.

(* ===================================================================== *)
(** ** The Firebase realtime database *)
(* ===================================================================== *)

Module Database.

(** The characters no path may hold: [INVALID_PATH_REGEX_] of the SDK,
    the five characters [.], [#], [$], '[' and ']' and the control
    characters. *)
Definition invalid_path_char (c : ascii) : bool :=
  existsb (Ascii.eqb c) ["."; "#"; "$"; "["; "]"]%char
  || (nat_of_ascii c <? 32)%nat
  || (nat_of_ascii c =? 127)%nat.

Fixpoint has_invalid_char (s : string) : bool :=
  match s with
  | EmptyString => false
  | String c rest => invalid_path_char c || has_invalid_char rest
  end.

(** [isValidPathString]: a non-empty string without invalid characters. *)
Definition isValidPathString (s : string) : bool :=
  negb (String.eqb s "") && negb (has_invalid_char s).

Fixpoint drop_slashes (s : string) : string :=
  match s with
  | String c rest => if Ascii.eqb c "/"%char then drop_slashes rest else s
  | EmptyString => s
  end.

(** What [validateRootPathString] checks: the path, with a leading ['.info']
    segment (after any slashes) replaced by ['/']. *)
Definition checked_path (path : string) : string :=
  let s := drop_slashes path in
  if String.prefix ".info/" s then String.substring 5 (String.length s - 5) s
  else if String.eqb s ".info" then "/"
  else path.

Definition valid_path (path : string) : bool :=
  isValidPathString (checked_path path).

(** The error [ref] throws on an invalid path. *)
Definition path_error (path : string) : jsval :=
  VObj [("name", VStr "Error");
        ("message",
         VStr ("Reference.child failed: First argument was an invalid path = "
               +:+ path
               +:+ ". Paths must be non-empty strings and can't contain "
               +:+ "'.', '#', '$', '[', or ']'"))].

(** The segments of a path, cut at every ['/']. *)
Fixpoint segments (s : string) : list string :=
  match s with
  | EmptyString => [""]
  | String c rest =>
      if Ascii.eqb c "/"%char then "" :: segments rest
      else match segments rest with
           | [] => [String c ""]
           | seg :: segs => String c seg :: segs
           end
  end.

(** The location a path names: the keys from the root down; empty segments
    do not count. *)
Definition location (path : string) : list string :=
  filter (fun seg => seg <> "") (segments path).

(** A [Reference]: the path it was made from. *)
Record Reference : Type := {
  ref_path : string
}.

(** [database().ref(path)]: throws on an invalid path, and is the reference
    to the path's location otherwise. *)
Definition ref (path : string) : settled Reference :=
  if valid_path path then Fulfilled {| ref_path := path |}
  else Rejected (path_error path).

(** The database is one JSON tree. Reading a location without data gives
    [null]. *)
Fixpoint db_get (loc : list string) (tree : jsval) : jsval :=
  match loc with
  | [] => tree
  | key :: below =>
      match tree with
      | VObj props =>
          match lookup_prop key props with
          | VUndefined => VNull
          | child => db_get below child
          end
      | _ => VNull
      end
  end.

(** [ref.set(value)]: replaces what is at the location, creating the
    objects on the way down. *)
Fixpoint db_set (loc : list string) (value : jsval) (tree : jsval) : jsval :=
  match loc with
  | [] => value
  | key :: below =>
      let props := match tree with VObj props => props | _ => [] end in
      VObj (set_prop key (db_set below value (lookup_prop key props)) props)
  end.

End Database.

(* ===================================================================== *)
(** ** Auth.js: the authentication wrapper *)
(* ===================================================================== *)

(** The key of the custom claims Hasura reads in a JWT. *)
Definition hasura_claims_key : string := "https://hasura.io/jwt/claims".

Module AuthJs.

(** [IdTokenResult] of firebase/auth: the token and its decoded claims, an
    object with values of any JSON type. *)
Record IdTokenResult : Type := {
  result_token : string;
  claims : list (string * jsval)
}.

(** [DataSnapshot] of firebase/database, as its value ([null] when there is
    no data at the location). *)
Record DataSnapshot : Type := {
  snapshot_value : jsval
}.

(** The methods of a [DataSnapshot]. *)
Definition DataSnapshot_methods : list string :=
  ["child"; "exists"; "exportVal"; "forEach"; "getPriority"; "hasChild";
   "hasChildren"; "numChildren"; "toJSON"; "val"].

(** [data.exists()]: the method, applied. *)
Definition exists_ (data : DataSnapshot) : bool :=
  match snapshot_value data with
  | VNull | VUndefined => false
  | _ => true
  end.

(** [data.member], not applied: a method is read as a function value, any
    other name here as [undefined]. *)
Definition member (data : DataSnapshot) (m : string) : jsval :=
  if existsb (String.eqb m) DataSnapshot_methods then VFun m else VUndefined.

(** The callbacks handed to [metadataRef.on('value', ...)]: the one closure
    of the file, with the [user] it captures. *)
Inductive Callback : Type :=
| refreshOnValue (user : User).

(** Synchronous calls. *)
Inductive action : Type -> Type :=
| setAuthState (s : AuthState) : action unit
| database_ref (path : string) : action (settled Database.Reference)
| ref_on (r : Database.Reference) (eventType : string) (cb : Callback) : action unit
| console_log (v : jsval) : action unit.

(** Calls that return a promise. *)
Inductive promise : Type -> Type :=
| getIdToken (u : User) (forceRefresh : bool) : promise string
| getIdTokenResult (u : User) : promise IdTokenResult
| signInWithPopup : promise unit
| auth_signOut : promise unit.

Definition async (A : Type) : Type := prog action promise A.

Local Open Scope prog_scope.

(** The callback of [metadataRef.on('value', async data => ...)]. *)
Definition onValue (user : User) (data : DataSnapshot) : async unit :=
  if negb (truthy (member data "exists")) then Ret tt
  else
    (* Force refresh to pick up the latest custom claims changes. *)
    let* token := await (getIdToken user true) in
    call (setAuthState (In_ user token)).

Definition apply_callback (cb : Callback) (data : DataSnapshot) : async unit :=
  match cb with
  | refreshOnValue user => onValue user data
  end.

(** The callback of [firebase.auth().onAuthStateChanged(async user => ...)];
    [None] is the [null] user of a signed-out state. *)
Definition onAuthStateChanged (user : option User) : async unit :=
  match user with
  | Some user =>
      let* token := await (getIdToken user false) in
      let* idTokenResult := await (getIdTokenResult user) in
      let hasuraClaim := lookup_prop hasura_claims_key (claims idTokenResult) in
      if truthy hasuraClaim then
        call (setAuthState (In_ user token))
      else
        (* Check if refresh is required. *)
        let* metadataRef :=
          call_or_throw (database_ref (("metadata/" +:+ uid user) +:+ "/refreshTime")) in
        call (ref_on metadataRef "value" (refreshOnValue user))
  | None => call (setAuthState Out)
  end.

Definition signInWithGoogle : async unit :=
  try_catch (await signInWithPopup)
            (fun error => call (console_log error)).

Definition signOut : async unit :=
  try_catch (call (setAuthState Loading) ;;
             await auth_signOut ;;
             call (setAuthState Out))
            (fun error => call (console_log error)).

(** What [Auth] returns for the current [authState]. *)
Definition Auth (authState : AuthState) : Node :=
  let content :=
    if String.eqb (status authState) "loading" then null
    else
      Fragment
        [ Element "div" []
            [ if String.eqb (status authState) "in" then
                Element "div" []
                  [ Element "h2" []
                      [ Text "Welcome, ";
                        match user authState with
                        | Some u => match displayName u with
                                    | Some n => Text n
                                    | None => null
                                    end
                        | None => null
                        end ];
                    Button onSignOut "Sign out" ]
              else Button onSignInWithGoogle "Sign in with Google" ];
          AppElement authState ]
  in
  Element "div" [("className", "auth")] [content].

(** *** The component's world *)

(** The promises of Firebase that were awaited, in order. *)
Inductive Awaited : Type :=
| awaited_getIdToken (u : User) (forceRefresh : bool)
| awaited_getIdTokenResult (u : User)
| awaited_signInWithPopup
| awaited_signOut.

(** The state of the component ([useState]), the listeners it registered on
    the realtime database, the console, and the awaited calls. *)
Record World : Type := {
  authState : AuthState;
  listeners : list (string * Callback);
  console : list jsval;
  awaited : list Awaited
}.

(** [useState({ status: 'loading' })] *)
Definition initial : World :=
  {| authState := Loading; listeners := []; console := []; awaited := [] |}.

(** How Firebase settles each promise. *)
Record Firebase : Type := {
  idToken : User -> bool -> settled string;
  idTokenResult : User -> settled IdTokenResult;
  popup : settled unit;
  signedOut : settled unit
}.

(** [setAuthState(s)] *)
Definition with_authState (s : AuthState) (w : World) : World :=
  {| authState := s; listeners := listeners w;
     console := console w; awaited := awaited w |}.

(** [ref(path).on('value', cb)] *)
Definition with_listener (path : string) (cb : Callback) (w : World) : World :=
  {| authState := authState w; listeners := listeners w ++ [(path, cb)];
     console := console w; awaited := awaited w |}.

(** [console.log(v)] *)
Definition with_log (v : jsval) (w : World) : World :=
  {| authState := authState w; listeners := listeners w;
     console := console w ++ [v]; awaited := awaited w |}.

Definition note (c : Awaited) (w : World) : World :=
  {| authState := authState w; listeners := listeners w;
     console := console w; awaited := awaited w ++ [c] |}.

Definition perform (X : Type) (a : action X) (w : World) : X * World :=
  match a in action T return T * World with
  | setAuthState s => (tt, with_authState s w)
  | database_ref path => (Database.ref path, w)
  | ref_on r _ cb => (tt, with_listener (Database.ref_path r) cb w)
  | console_log v => (tt, with_log v w)
  end.

Definition settle (fb : Firebase) (X : Type) (p : promise X) (w : World)
  : settled X * World :=
  match p in promise T return settled T * World with
  | getIdToken u force => (idToken fb u force, note (awaited_getIdToken u force) w)
  | getIdTokenResult u => (idTokenResult fb u, note (awaited_getIdTokenResult u) w)
  | signInWithPopup => (popup fb, note awaited_signInWithPopup w)
  | auth_signOut => (signedOut fb, note awaited_signOut w)
  end.

(** A whole run of an async function of the component. *)
Definition exec {A : Type} (fb : Firebase) (m : async A) (w : World)
  : settled A * World :=
  run perform (settle fb) m w.

(** The run up to the first await. *)
Definition exec_sync {A : Type} (m : async A) (w : World)
  : stage action promise A * World :=
  run_sync perform m w.

(** A ['value'] event at [path]: every callback registered there runs with
    the snapshot. *)
Fixpoint fire (fb : Firebase) (path : string) (data : DataSnapshot)
         (ls : list (string * Callback)) (w : World) : World :=
  match ls with
  | [] => w
  | (p, cb) :: rest =>
      if String.eqb p path
      then fire fb path data rest (snd (exec fb (apply_callback cb data) w))
      else fire fb path data rest w
  end.

Definition on_value_event (fb : Firebase) (path : string) (data : DataSnapshot)
           (w : World) : World :=
  fire fb path data (listeners w) w.

End AuthJs.

(* ===================================================================== *)
(** ** The cloud function: processSignUp *)
(* ===================================================================== *)

Module Functions.

Import Database.

(** Synchronous calls of the function. *)
Inductive action : Type -> Type :=
| database_ref (path : string) : action (settled Reference)
| Date_getTime : action Z
| console_log (v : jsval) : action unit.

(** Calls of the Admin SDK that return a promise. *)
Inductive promise : Type -> Type :=
| setCustomUserClaims (uid : string) (customUserClaims : jsval) : promise unit
| ref_set (r : Reference) (value : jsval) : promise unit.

Definition async (A : Type) : Type := prog action promise A.

Local Open Scope prog_scope.

Definition customClaims (user : User) : jsval :=
  VObj [ (hasura_claims_key,
          VObj [ ("x-hasura-default-role", VStr "user");
                 ("x-hasura-allowed-roles", VArr [VStr "user"]);
                 ("x-hasura-user-id", VStr (uid user)) ]) ].

(** [functions.auth.user().onCreate(user => ...)] *)
Definition processSignUp (user : User) : async unit :=
  catch_
    (then_ (await (setCustomUserClaims (uid user) (customClaims user)))
       (fun _ =>
          (* Update real-time database to notify client to force refresh. *)
          let* metadataRef := call_or_throw (database_ref ("metadata/" +:+ uid user)) in
          (* Set the refresh time to the current UTC timestamp. *)
          let* time := call Date_getTime in
          await (ref_set metadataRef (VObj [("refreshTime", VNum time)]))))
    (fun error => call (console_log error)).

(** *** The function's world *)

(** The calls of the Admin SDK, in order. *)
Inductive Called : Type :=
| called_setCustomUserClaims (uid : string) (customUserClaims : jsval)
| called_set (path : string) (value : jsval).

(** The custom claims Firebase Authentication holds per uid, the realtime
    database, the function's log, the clock, and the calls made. *)
Record World : Type := {
  customUserClaims : gmap string jsval;
  database : jsval;
  console : list jsval;
  clock : Z;
  called : list Called
}.

(** The services may fail a call: the reason, if they do. *)
Record Faults : Type := {
  setCustomUserClaims_fails : option jsval;
  set_fails : option jsval
}.

(** [console.log(v)] *)
Definition with_log (v : jsval) (w : World) : World :=
  {| customUserClaims := customUserClaims w; database := database w;
     console := console w ++ [v]; clock := clock w; called := called w |}.

Definition note (c : Called) (w : World) : World :=
  {| customUserClaims := customUserClaims w; database := database w;
     console := console w; clock := clock w; called := called w ++ [c] |}.

(** A fulfilled [setCustomUserClaims(uid, c)]: the claims of [uid] are [c]. *)
Definition with_claims (uid : string) (c : jsval) (w : World) : World :=
  {| customUserClaims := <[uid := c]> (customUserClaims w); database := database w;
     console := console w; clock := clock w; called := called w |}.

(** A fulfilled [ref(path).set(value)]. *)
Definition with_value (path : string) (value : jsval) (w : World) : World :=
  {| customUserClaims := customUserClaims w;
     database := db_set (location path) value (database w);
     console := console w; clock := clock w; called := called w |}.

Definition perform (X : Type) (a : action X) (w : World) : X * World :=
  match a in action T return T * World with
  | database_ref path => (ref path, w)
  | Date_getTime => (clock w, w)
  | console_log v => (tt, with_log v w)
  end.

Definition settle (f : Faults) (X : Type) (p : promise X) (w : World)
  : settled X * World :=
  match p in promise T return settled T * World with
  | setCustomUserClaims uid c =>
      match setCustomUserClaims_fails f with
      | Some reason => (Rejected reason, note (called_setCustomUserClaims uid c) w)
      | None =>
          (Fulfilled tt, with_claims uid c (note (called_setCustomUserClaims uid c) w))
      end
  | ref_set r value =>
      let path := ref_path r in
      match set_fails f with
      | Some reason => (Rejected reason, note (called_set path value) w)
      | None => (Fulfilled tt, with_value path value (note (called_set path value) w))
      end
  end.

Definition exec {A : Type} (f : Faults) (m : async A) (w : World)
  : settled A * World :=
  run perform (settle f) m w.

End Functions.

(* ===================================================================== *)
(** ** Vocabulary of the statements *)
(* ===================================================================== *)

(** [getMainDefinition] as apollo-utilities documents it: the first operation
    definition of the document, else its first fragment definition, else a
    throw. The theorems hold for any [getMainDefinition]; this one instantiates
    them. *)
Definition is_operation (def : DefinitionNode) : bool :=
  String.eqb (kind def) "OperationDefinition"
  && match operation def with
     | Some o => existsb (String.eqb o) ["query"; "mutation"; "subscription"]
     | None => false
     end.

Definition apollo_getMainDefinition (doc : DocumentNode) : settled DefinitionNode :=
  match List.find is_operation (definitions doc) with
  | Some def => Fulfilled def
  | None =>
      match List.find (fun def => String.eqb (kind def) "FragmentDefinition")
                      (definitions doc) with
      | Some def => Fulfilled def
      | None => Rejected (VStr "Expected a parsed GraphQL query with a query, mutation, subscription, or a fragment.")
      end
  end.

(** The documents the [Mutation] elements of a rendered tree are bound to. *)
Fixpoint mutations_of (n : Node) : list DocumentNode :=
  match n with
  | Fragment cs | Element _ _ cs => List.flat_map mutations_of cs
  | Mutation m _ child => m :: mutations_of child
  | _ => []
  end.

Module Expected.
Import AppJs.

(** The headers a terminating link sends: the [headers] option of the HTTP
    link, the [connectionParams.headers] of the WebSocket link. *)
Definition sent_headers (l : ApolloLink) : option (gmap string string) :=
  match l with
  | HttpLink cfg => Some (http_headers cfg)
  | WebSocketLink cfg => Some (headers_param (connectionParams (options cfg)))
  | split _ _ _ => None
  end.

Definition is_subscription (def : DefinitionNode) : Prop :=
  kind def = "OperationDefinition" /\ operation def = Some "subscription".

(** A button inside a [Mutation] bound to [doc] with [{ name }]. *)
Definition bound_button (doc : DocumentNode) (label name : string) : Node :=
  Mutation doc [("name", VStr name)] (Button mutate label).

Definition vote_button : string -> Node := bound_button VOTE_MUTATION "Vote".
Definition love_button : string -> Node := bound_button LOVE_MUTATION "Love".
Definition unlove_button : string -> Node := bound_button UNLOVE_MUTATION "Unlove".

(** The [<li>] of a language, with what follows its Vote button. *)
Definition list_item (pl : ProgrammingLanguage) (content : Node) : Node :=
  Element "li" [("key", name pl)]
    [ Element "span" [] [ Text (name pl +:+ " - " +:+ pretty (vote_count pl)) ];
      Element "span" [] [ vote_button (name pl); content ] ].

Definition pl_list (items : list Node) : Node :=
  Element "ul" [("className", "pl-list")] items.

(** A result that is neither loading nor failed. *)
Definition ready (rows : list ProgrammingLanguage) : SubscriptionResult :=
  {| data := Some {| programming_language := rows |};
     loading := false; error := None |}.

(** What the claim on the buttons says of one row and its list item. *)
Definition row_rendered (a : AuthState) (pl : ProgrammingLanguage) (item : Node)
  : Prop :=
  exists content,
    item = list_item pl content
    /\ (status a <> "in" -> content = null)
    /\ (status a = "in" ->
        forall agg, lovedLanguagesByname_aggregate pl = Some agg ->
          (content = unlove_button (name pl) <-> count (aggregate agg) = 1)
          /\ (content = love_button (name pl) <-> count (aggregate agg) <> 1)).

(** Some render of the list binds a button to [doc]. *)
Definition bound_somewhere (doc : DocumentNode) : Prop :=
  exists (a : AuthState) (result : SubscriptionResult) (node : Node),
    renderSubscription (isIn a) result = Fulfilled node
    /\ In doc (mutations_of node).

(** The mutations of the file. *)
Definition button_documents : list DocumentNode :=
  [VOTE_MUTATION; LOVE_MUTATION; UNLOVE_MUTATION].

(** Sample inputs. *)
Definition sample_rows : list ProgrammingLanguage :=
  [ {| name := "Coq"; vote_count := 7;
       lovedLanguagesByname_aggregate := Some {| aggregate := {| count := 1 |} |} |};
    {| name := "JavaScript"; vote_count := 3;
       lovedLanguagesByname_aggregate := Some {| aggregate := {| count := 0 |} |} |};
    {| name := "OCaml"; vote_count := 5;
       lovedLanguagesByname_aggregate := Some {| aggregate := {| count := 2 |} |} |} ].

Definition sample_user : User := {| uid := "u1"; displayName := Some "Ada" |}.

End Expected.

Module ExpectedAuth.
Import AuthJs.

(** The location the client listens on for [u]. *)
Definition refreshTime_path (u : User) : string :=
  ("metadata/" +:+ uid u) +:+ "/refreshTime".

(** ['value'] events at [path], one after the other. *)
Definition on_value_events (fb : Firebase) (path : string)
           (datas : list DataSnapshot) (w : World) : World :=
  fold_left (fun w data => on_value_event fb path data w) datas w.

(** A snapshot of a location without data. *)
Definition empty_snapshot : DataSnapshot := {| snapshot_value := VNull |}.

(** A Firebase whose id token holds [c] as claims and whose forced refresh
    gives the token "jwt2". *)
Definition firebase_with_claims (c : list (string * jsval)) : Firebase :=
  {| idToken := fun _ force => Fulfilled (if force then "jwt2" else "jwt");
     idTokenResult := fun _ => Fulfilled {| result_token := "jwt"; claims := c |};
     popup := Fulfilled tt;
     signedOut := Fulfilled tt |}.

(** Claims that hold the Hasura key, with the value [false]. *)
Definition falsy_claims : list (string * jsval) :=
  [("sub", VStr "u1"); (hasura_claims_key, VBool false)].

(** The claims of a token issued before the cloud function ran. *)
Definition plain_claims : list (string * jsval) := [("sub", VStr "u1")].

(** A user created with a uid of the project's own choosing (Admin SDK
    [createUser] or an import), with a [.] in it. *)
Definition dotted_user : User := {| uid := "a.b"; displayName := None |}.

(** A Firebase whose sign-out fails. *)
Definition firebase_sign_out_fails (reason : jsval) : Firebase :=
  {| idToken := fun _ _ => Fulfilled "jwt";
     idTokenResult := fun _ => Fulfilled {| result_token := "jwt"; claims := [] |};
     popup := Fulfilled tt;
     signedOut := Rejected reason |}.

End ExpectedAuth.

Module ExpectedFunctions.
Import Functions.

(** What the function writes at 'metadata/{uid}'. *)
Definition refresh_record (time : Z) : jsval := VObj [("refreshTime", VNum time)].

(** The two calls of the function on [user] at time [time]. *)
Definition claims_call (user : User) : Called :=
  called_setCustomUserClaims (uid user) (customClaims user).

Definition write_call (user : User) (time : Z) : Called :=
  called_set ("metadata/" +:+ uid user) (refresh_record time).

(** Sample inputs: services that do not fail, a project without users or data
    at time 1000, and a user. *)
Definition no_faults : Faults :=
  {| setCustomUserClaims_fails := None; set_fails := None |}.

Definition claims_fault (reason : jsval) : Faults :=
  {| setCustomUserClaims_fails := Some reason; set_fails := None |}.

Definition fresh_project : World :=
  {| customUserClaims := ∅; database := VNull; console := [];
     clock := 1000; called := [] |}.

Definition new_user : User := {| uid := "u1"; displayName := Some "Ada" |}.

End ExpectedFunctions.

(* ===================================================================== *)
(** ** Vocabulary of the further properties *)
(* ===================================================================== *)

(** The buttons of a rendered tree, with what their click is bound to. *)
Fixpoint buttons_of (n : Node) : list (Handler * string) :=
  match n with
  | Fragment cs | Element _ _ cs => List.flat_map buttons_of cs
  | Button h label => [(h, label)]
  | Mutation _ _ child => buttons_of child
  | _ => []
  end.

(** The [<App authState={...} />] elements of a rendered tree. *)
Fixpoint apps_of (n : Node) : list AuthState :=
  match n with
  | Fragment cs | Element _ _ cs => List.flat_map apps_of cs
  | Mutation _ _ child => apps_of child
  | AppElement a => [a]
  | _ => []
  end.

(** The [key] of a list item. *)
Definition key_of (n : Node) : option string :=
  match n with
  | Element _ props _ =>
      match List.find (fun p => String.eqb (fst p) "key") props with
      | Some p => Some (snd p)
      | None => None
      end
  | _ => None
  end.

(** The properties of an object value. *)
Definition object_props (v : jsval) : list (string * jsval) :=
  match v with
  | VObj props => props
  | _ => []
  end.

Module ExpectedFlow.
Import AuthJs ExpectedAuth.

(** Auth-state changes, one after the other. *)
Definition auth_changes (fb : Firebase) (users : list (option User)) (w : World)
  : World :=
  fold_left (fun w ou => snd (exec fb (onAuthStateChanged ou) w)) users w.

(** The snapshot a ['value'] event at [path] carries when the database is
    [db]. *)
Definition snapshot_at (db : jsval) (path : string) : DataSnapshot :=
  {| snapshot_value := Database.db_get (Database.location path) db |}.

(** A Firebase that rejects every id token request. *)
Definition firebase_token_fails (reason : jsval) : Firebase :=
  {| idToken := fun _ _ => Rejected reason;
     idTokenResult := fun _ => Rejected reason;
     popup := Fulfilled tt;
     signedOut := Fulfilled tt |}.

(** A Firebase whose sign-in popup is closed by the user. *)
Definition firebase_popup_fails (reason : jsval) : Firebase :=
  {| idToken := fun _ _ => Fulfilled "jwt";
     idTokenResult := fun _ => Fulfilled {| result_token := "jwt"; claims := [] |};
     popup := Rejected reason;
     signedOut := Fulfilled tt |}.

(** [getMainDefinition] on the documents [gql] builds from one operation:
    that operation. *)
Definition returns_sole_operation
           (getMainDefinition : DocumentNode -> settled DefinitionNode) : Prop :=
  forall op name vars sel,
    In op ["query"; "mutation"; "subscription"] ->
    getMainDefinition (gql op name vars sel)
    = Fulfilled {| kind := "OperationDefinition"; operation := Some op;
                   name_value := name; variableDefinitions := vars;
                   selections := sel |}.

(** A row as [PL_SUB] returns it. *)
Definition plain_row (n : string) (votes : Z) : AppJs.ProgrammingLanguage :=
  {| AppJs.name := n; AppJs.vote_count := votes;
     AppJs.lovedLanguagesByname_aggregate := None |}.

End ExpectedFlow.

Module ExpectedServer.
Import Functions.

(** The world at a later time. *)
Definition at_time (t : Z) (w : World) : World :=
  {| customUserClaims := customUserClaims w; database := database w;
     console := console w; clock := t; called := called w |}.

(** What the function logs for [user] under [f]: the first error of the
    chain, if there is one (a failing call, or the throw of [ref] on a uid
    with an invalid character). *)
Definition logged (f : Faults) (user : User) : list jsval :=
  match setCustomUserClaims_fails f with
  | Some reason => [reason]
  | None =>
      if Database.has_invalid_char (uid user)
      then [Database.path_error ("metadata/" +:+ uid user)]
      else match set_fails f with
           | Some reason => [reason]
           | None => []
           end
  end.

(** A project where the user's metadata already holds something else. *)
Definition project_with_metadata : World :=
  {| customUserClaims := ∅;
     database := VObj [("metadata",
                        VObj [("u1", VObj [("refreshTime", VNum 1);
                                           ("note", VStr "kept?")])])];
     console := []; clock := 2000; called := [] |}.

End ExpectedServer.

(* ===================================================================== *)
(** ** Properties of App.js *)
(* ===================================================================== *)

Section AppProperties.
Import AppJs Expected.

Lemma isIn_status (a : AuthState) : isIn a = true <-> status a = "in".
Proof. unfold isIn. apply String.eqb_eq. Qed.

Lemma isIn_In (a : AuthState) :
  isIn a = true <-> exists u t, a = In_ u t.
Proof.
  destruct a; cbn; split; try discriminate; eauto.
  all: intros (u & t & E); discriminate.
Qed.

Lemma isIn_false (a : AuthState) : isIn a = false <-> status a <> "in".
Proof.
  rewrite <- isIn_status. destruct (isIn a); split; congruence.
Qed.

Lemma test_spec (gmd : DocumentNode -> settled DefinitionNode)
      (op : Operation) (def : DefinitionNode) :
  gmd (query op) = Fulfilled def ->
  exists b, test gmd op = Fulfilled b /\ (b = true <-> is_subscription def).
Proof.
  intros E. unfold test. rewrite E. cbn. eexists; split; [reflexivity|].
  unfold is_subscription. rewrite andb_true_iff, String.eqb_eq.
  destruct (operation def) as [o|].
  - rewrite String.eqb_eq. split; intros [H1 H2]; split; congruence.
  - split; intros [H1 H2]; discriminate.
Qed.

(** C2. Every request whose query has a main definition goes to the
    WebSocket link if and only if that definition has kind
    'OperationDefinition' and operation 'subscription', and to the HTTP link
    in every other case. *)
Theorem C2_split_routes_subscriptions_to_ws
        (getMainDefinition : DocumentNode -> settled DefinitionNode)
        (a : AuthState) (op : Operation) (def : DefinitionNode) :
  getMainDefinition (query op) = Fulfilled def ->
  (request (link getMainDefinition a) op = Fulfilled (wsLink a)
     <-> is_subscription def)
  /\ (request (link getMainDefinition a) op = Fulfilled (httpLink a)
     <-> ~ is_subscription def).
Proof.
  intros E. destruct (test_spec getMainDefinition op def E) as (b & Hb & Hiff).
  unfold link. cbn [request]. rewrite Hb. cbn [and_then].
  destruct b; cbn [request]; split; split; intros H.
  - apply Hiff; reflexivity.
  - reflexivity.
  - discriminate.
  - exfalso. apply H, Hiff. reflexivity.
  - discriminate.
  - apply Hiff in H. discriminate.
  - intros Hs. apply Hiff in Hs. discriminate.
  - reflexivity.
Qed.

Lemma C2_witness :
  let op := {| query := PL_SUB; op_variables := VNull |} in
  let def := {| kind := "OperationDefinition"; operation := Some "subscription";
                name_value := "PL"; variableDefinitions := [];
                selections := [ Field "programming_language" order_by_vote_count
                                  [ Field "name" [] []; Field "vote_count" [] [] ] ] |} in
  (request (link apollo_getMainDefinition Out) op = Fulfilled (wsLink Out)
     <-> is_subscription def)
  /\ (request (link apollo_getMainDefinition Out) op = Fulfilled (httpLink Out)
     <-> ~ is_subscription def).
Proof.
  apply (C2_split_routes_subscriptions_to_ws apollo_getMainDefinition Out).
  reflexivity.
Defined.

Example mutation_goes_to_http :
  request (link apollo_getMainDefinition Out)
          {| query := VOTE_MUTATION; op_variables := VObj [("name", VStr "Coq")] |}
  = Fulfilled (httpLink Out).
Proof. reflexivity. Qed.

Example subscription_goes_to_ws :
  request (link apollo_getMainDefinition (In_ sample_user "jwt"))
          {| query := PL_WITH_LOVE_SUB; op_variables := VObj [("userId", VStr "u1")] |}
  = Fulfilled (wsLink (In_ sample_user "jwt")).
Proof. reflexivity. Qed.

(** C4. With status 'in' the component subscribes with PL_WITH_LOVE_SUB and
    the variables { userId: authState.user.uid }, and its headers are the one
    entry Authorization: 'Bearer <token>'; with any other status it
    subscribes with PL_SUB and null variables and its headers are empty.
    Both the HTTP link and the connectionParams of the WebSocket link carry
    these headers, so the Authorization header is sent exactly when the
    status is 'in'. *)
Theorem C4_subscription_and_headers_follow_authState
        (getMainDefinition : DocumentNode -> settled DefinitionNode)
        (a : AuthState) :
  (status a = "in" ->
     exists u t, a = In_ u t
       /\ subscription (App getMainDefinition a) = PL_WITH_LOVE_SUB
       /\ variables (App getMainDefinition a) = VObj [("userId", VStr (uid u))]
       /\ headers a = {[ "Authorization" := "Bearer " +:+ t ]})
  /\ (status a <> "in" ->
        subscription (App getMainDefinition a) = PL_SUB
        /\ variables (App getMainDefinition a) = VNull
        /\ headers a = ∅)
  /\ sent_headers (httpLink a) = Some (headers a)
  /\ sent_headers (wsLink a) = Some (headers a)
  /\ (is_Some (headers a !! "Authorization") <-> status a = "in").
Proof.
  split; [|split; [|split; [|split]]].
  - intros Hin. destruct a as [| |u t]; try discriminate.
    exists u, t. repeat split; reflexivity.
  - intros Hout. destruct a as [| |u t]; try (repeat split; reflexivity).
    exfalso. apply Hout. reflexivity.
  - reflexivity.
  - reflexivity.
  - destruct a as [| |u t]; cbn; unfold headers, isIn; cbn.
    + rewrite lookup_empty. split; [intros [x Hx]|]; discriminate.
    + rewrite lookup_empty. split; [intros [x Hx]|]; discriminate.
    + rewrite lookup_singleton_eq. split; eauto.
Qed.

(** *** Rendering of the list *)

Lemma renderLanguage_out (pl : ProgrammingLanguage) :
  renderLanguage false pl = Fulfilled (list_item pl null).
Proof. reflexivity. Qed.

Lemma renderLanguage_in (pl : ProgrammingLanguage) (agg : Aggregate) :
  lovedLanguagesByname_aggregate pl = Some agg ->
  renderLanguage true pl
  = Fulfilled (list_item pl (if count (aggregate agg) =? 1
                             then unlove_button (name pl)
                             else love_button (name pl))).
Proof.
  intros E. unfold renderLanguage. rewrite E.
  destruct (count (aggregate agg) =? 1); reflexivity.
Qed.

Lemma renderLanguage_in_undefined (pl : ProgrammingLanguage) :
  lovedLanguagesByname_aggregate pl = None ->
  exists e, renderLanguage true pl = Rejected e.
Proof. intros E. unfold renderLanguage. rewrite E. eexists. reflexivity. Qed.

Lemma love_is_not_unlove (n : string) : love_button n <> unlove_button n.
Proof. discriminate. Qed.

Lemma row_rendered_intro (a : AuthState) (pl : ProgrammingLanguage) (item : Node) :
  (status a = "in" -> is_Some (lovedLanguagesByname_aggregate pl)) ->
  renderLanguage (isIn a) pl = Fulfilled item ->
  row_rendered a pl item.
Proof.
  intros Hagg Hr. destruct (isIn a) eqn:Ein.
  - apply isIn_status in Ein. destruct (Hagg Ein) as [agg Eagg].
    rewrite (renderLanguage_in pl agg Eagg) in Hr. injection Hr as <-.
    eexists. split; [reflexivity|]. split; [intros Hne; contradiction|].
    intros _ agg' Eagg'. rewrite Eagg in Eagg'. injection Eagg' as <-.
    destruct (Z.eqb_spec (count (aggregate agg)) 1) as [E1|E1].
    + split; split; intros H; try reflexivity; try assumption.
      * exfalso. symmetry in H. exact (love_is_not_unlove _ H).
      * contradiction.
    + split; split; intros H; try reflexivity; try assumption.
      * exfalso. exact (love_is_not_unlove _ H).
      * contradiction.
  - rewrite renderLanguage_out in Hr. injection Hr as <-.
    apply isIn_false in Ein.
    eexists. split; [reflexivity|]. split; [reflexivity|].
    intros Hin. contradiction.
Qed.

Lemma array_map_rendered (a : AuthState) (rows : list ProgrammingLanguage) :
  (status a = "in" ->
     Forall (fun pl => is_Some (lovedLanguagesByname_aggregate pl)) rows) ->
  exists items,
    array_map (renderLanguage (isIn a)) rows = Fulfilled items
    /\ Forall2 (row_rendered a) rows items.
Proof.
  intros Hagg. induction rows as [|pl rows IH].
  - exists []. split; [reflexivity | constructor].
  - assert (Hhd : status a = "in" -> is_Some (lovedLanguagesByname_aggregate pl)).
    { intros Hin. specialize (Hagg Hin). inversion Hagg; assumption. }
    assert (Htl : status a = "in" ->
                  Forall (fun pl => is_Some (lovedLanguagesByname_aggregate pl)) rows).
    { intros Hin. specialize (Hagg Hin). inversion Hagg; assumption. }
    destruct (IH Htl) as (items & Eitems & Hitems).
    assert (exists item, renderLanguage (isIn a) pl = Fulfilled item) as [item Eitem].
    { destruct (isIn a) eqn:Ein.
      - apply isIn_status in Ein. destruct (Hhd Ein) as [agg Eagg].
        rewrite (renderLanguage_in pl agg Eagg). eauto.
      - rewrite renderLanguage_out. eauto. }
    exists (item :: items). cbn [array_map]. rewrite Eitem, Eitems. cbn.
    split; [reflexivity|]. constructor; [|assumption].
    apply row_rendered_intro; assumption.
Qed.

(** C5. The subscription's rows render to one list item each. Every item
    holds a Vote button bound to VOTE_MUTATION with the row's name. For a
    user who is not signed in nothing follows it. For a signed-in user (whose
    rows carry the per-user aggregate that PL_WITH_LOVE_SUB selects) an
    Unlove button bound to UNLOVE_MUTATION follows exactly when the count is
    1, and a Love button bound to LOVE_MUTATION exactly when it is not. *)
Theorem C5_buttons_of_the_list (a : AuthState) (rows : list ProgrammingLanguage) :
  (status a = "in" ->
     Forall (fun pl => is_Some (lovedLanguagesByname_aggregate pl)) rows) ->
  exists items,
    renderSubscription (isIn a) (ready rows) = Fulfilled (pl_list items)
    /\ Forall2 (row_rendered a) rows items.
Proof.
  intros Hagg. destruct (array_map_rendered a rows Hagg) as (items & E & H).
  exists items. split; [|assumption].
  unfold renderSubscription, ready. cbn. rewrite E. reflexivity.
Qed.

Lemma C5_witness :
  exists items,
    renderSubscription (isIn (In_ sample_user "jwt")) (ready sample_rows)
    = Fulfilled (pl_list items)
    /\ Forall2 (row_rendered (In_ sample_user "jwt")) sample_rows items.
Proof.
  apply (C5_buttons_of_the_list (In_ sample_user "jwt") sample_rows).
  intros _. unfold sample_rows. repeat constructor; cbn; eauto.
Defined.

Example sample_render_in :
  renderSubscription true (ready sample_rows)
  = Fulfilled (pl_list
      [ Element "li" [("key", "Coq")]
          [ Element "span" [] [ Text "Coq - 7" ];
            Element "span" [] [ vote_button "Coq"; unlove_button "Coq" ] ];
        Element "li" [("key", "JavaScript")]
          [ Element "span" [] [ Text "JavaScript - 3" ];
            Element "span" [] [ vote_button "JavaScript"; love_button "JavaScript" ] ];
        Element "li" [("key", "OCaml")]
          [ Element "span" [] [ Text "OCaml - 5" ];
            Element "span" [] [ vote_button "OCaml"; love_button "OCaml" ] ] ]).
Proof. vm_compute. reflexivity. Qed.

Example sample_render_out :
  renderSubscription false (ready sample_rows)
  = Fulfilled (pl_list
      [ Element "li" [("key", "Coq")]
          [ Element "span" [] [ Text "Coq - 7" ];
            Element "span" [] [ vote_button "Coq"; null ] ];
        Element "li" [("key", "JavaScript")]
          [ Element "span" [] [ Text "JavaScript - 3" ];
            Element "span" [] [ vote_button "JavaScript"; null ] ];
        Element "li" [("key", "OCaml")]
          [ Element "span" [] [ Text "OCaml - 5" ];
            Element "span" [] [ vote_button "OCaml"; null ] ] ]).
Proof. vm_compute. reflexivity. Qed.

(** C9. The child function of the subscription returns 'loading...'
    whenever loading is true, whatever data and error are; otherwise it
    returns error.message whenever there is an error, whatever data is; only
    in the remaining case does it read data.programming_language and map
    over it. In the first two cases it returns even when data is undefined. *)
Theorem C9_data_read_only_when_loaded_without_error
        (isIn : bool) (result : SubscriptionResult) :
  (loading result = true ->
     renderSubscription isIn result = Fulfilled (Text "loading..."))
  /\ (forall err, loading result = false -> error result = Some err ->
        renderSubscription isIn result = Fulfilled (Text (message err)))
  /\ (forall d, loading result = false -> error result = None ->
        data result = Some d ->
        renderSubscription isIn result
        = and_then (array_map (renderLanguage isIn) (programming_language d))
                   (fun items => Fulfilled (pl_list items)))
  /\ (data result = None ->
        (exists txt, renderSubscription isIn result = Fulfilled (Text txt))
        <-> (loading result = true \/ is_Some (error result))).
Proof.
  unfold renderSubscription.
  destruct result as [d l e]; cbn [loading error data].
  split; [|split; [|split]].
  - intros ->. reflexivity.
  - intros err -> ->. reflexivity.
  - intros d' -> -> ->. reflexivity.
  - intros ->. destruct l; [|destruct e as [err|]].
    + split; eauto.
    + split; eauto.
    + split.
      * intros [txt H]. discriminate.
      * intros [H|[x H]]; discriminate.
Qed.

(** *** The documents *)

Lemma static_documents_distinct : NoDup static_documents.
Proof.
  unfold static_documents.
  repeat (apply NoDup_cons_2; [rewrite ?list_elem_of_In; cbn; intuition discriminate|]).
  apply NoDup_nil_2.
Qed.

Lemma mutations_of_renderLanguage (isIn : bool) (pl : ProgrammingLanguage) (item : Node) :
  renderLanguage isIn pl = Fulfilled item ->
  incl (mutations_of item) button_documents.
Proof.
  unfold renderLanguage. intros H.
  destruct isIn; [destruct (lovedLanguagesByname_aggregate pl) as [agg|];
                  [destruct (count (aggregate agg) =? 1)|]|];
    cbn in H; try discriminate; injection H as <-; cbn;
    intros d Hd; cbn in Hd; unfold button_documents; cbn; intuition.
Qed.

Lemma mutations_of_array_map (isIn : bool) (rows : list ProgrammingLanguage) :
  forall items,
    array_map (renderLanguage isIn) rows = Fulfilled items ->
    incl (List.flat_map mutations_of items) button_documents.
Proof.
  induction rows as [|pl rows IH]; intros items H; cbn in H.
  - injection H as <-. intros d [].
  - destruct (renderLanguage isIn pl) as [item|e] eqn:Eitem; [|discriminate].
    cbn in H.
    destruct (array_map (renderLanguage isIn) rows) as [rest|e] eqn:Erest;
      [|discriminate].
    cbn in H. injection H as <-. cbn [List.flat_map].
    apply incl_app.
    + eapply mutations_of_renderLanguage; eassumption.
    + apply IH. reflexivity.
Qed.

Lemma bound_somewhere_iff (doc : DocumentNode) :
  bound_somewhere doc <-> In doc button_documents.
Proof.
  split.
  - intros (a & result & node & Hr & Hin). revert Hr Hin.
    unfold renderSubscription.
    destruct (loading result); [intros [= <-] []|].
    destruct (error result) as [err|]; [intros [= <-] []|].
    destruct (data result) as [d|]; [|discriminate].
    destruct (array_map (renderLanguage (isIn a)) (programming_language d))
      as [items|e] eqn:E; [|discriminate].
    cbn. intros [= <-] Hin. cbn [mutations_of] in Hin.
    eapply mutations_of_array_map; eassumption.
  - intros Hin. exists (In_ sample_user "jwt"), (ready sample_rows).
    eexists. split; [vm_compute; reflexivity|].
    unfold button_documents in Hin. cbn in Hin. cbn.
    unfold vote_button, love_button, unlove_button, bound_button.
    cbn. intuition.
Qed.

(** C6, as stated, fails: the data component defines five static documents,
    not four, and the buttons are bound to three of them; no list of four
    distinct documents is the set of the documents of the component, nor the
    set of those some button is bound to. *)
Lemma C6_not_four_documents :
  length static_documents <> 4%nat
  /\ ~ (exists docs : list DocumentNode,
          NoDup docs /\ length docs = 4%nat
          /\ forall d, In d docs <-> In d static_documents)
  /\ ~ (exists docs : list DocumentNode,
          NoDup docs /\ length docs = 4%nat
          /\ forall d, In d docs <-> bound_somewhere d).
Proof.
  split; [cbn; lia|]. split.
  - intros (docs & Hnd & Hlen & Hiff).
    assert (Hle : (length static_documents <= length docs)%nat).
    { apply List.NoDup_incl_length.
      - apply NoDup_ListNoDup, static_documents_distinct.
      - intros d Hd. apply Hiff, Hd. }
    rewrite Hlen in Hle. cbn in Hle. lia.
  - intros (docs & Hnd & Hlen & Hiff).
    assert (Hle : (length docs <= length button_documents)%nat).
    { apply List.NoDup_incl_length.
      - apply NoDup_ListNoDup, Hnd.
      - intros d Hd. apply bound_somewhere_iff, Hiff, Hd. }
    rewrite Hlen in Hle. cbn in Hle. lia.
Qed.

(** C6, amended. The data component defines exactly five static GraphQL
    documents, all distinct: the two subscriptions PL_SUB and
    PL_WITH_LOVE_SUB, one of which feeds the list, and the three mutations
    VOTE_MUTATION, LOVE_MUTATION and UNLOVE_MUTATION, which are exactly the
    documents the rendered buttons are bound to. *)
Theorem C6_five_documents_three_for_buttons :
  static_documents
  = ([PL_SUB; PL_WITH_LOVE_SUB]
     ++ [VOTE_MUTATION; LOVE_MUTATION; UNLOVE_MUTATION])%list
  /\ NoDup static_documents
  /\ length static_documents = 5%nat
  /\ (forall d, bound_somewhere d
                <-> In d [VOTE_MUTATION; LOVE_MUTATION; UNLOVE_MUTATION])
  /\ (forall getMainDefinition a,
        In (subscription (App getMainDefinition a)) [PL_SUB; PL_WITH_LOVE_SUB]).
Proof.
  split; [reflexivity|]. split; [apply static_documents_distinct|].
  split; [reflexivity|]. split; [apply bound_somewhere_iff|].
  intros gmd a. cbn. destruct (isIn a); auto.
Qed.

End AppProperties.

(* ===================================================================== *)
(** ** Properties of Auth.js *)
(* ===================================================================== *)

Section AuthProperties.
Import AuthJs Expected ExpectedAuth.

Lemma has_invalid_char_app (a b : string) :
  Database.has_invalid_char (a +:+ b)
  = Database.has_invalid_char a || Database.has_invalid_char b.
Proof.
  induction a as [|c rest IH].
  - reflexivity.
  - change (String c rest +:+ b) with (String c (rest +:+ b)).
    cbn [Database.has_invalid_char]. rewrite IH, orb_assoc. reflexivity.
Qed.

(** [ref] accepts a path under 'metadata/' exactly when what follows holds
    none of the invalid characters. *)
Lemma valid_path_metadata (rest : string) :
  Database.valid_path ("metadata/" +:+ rest)
  = negb (Database.has_invalid_char rest).
Proof.
  unfold Database.valid_path.
  change (Database.checked_path ("metadata/" +:+ rest)) with ("metadata/" +:+ rest).
  unfold Database.isValidPathString.
  change (String.eqb ("metadata/" +:+ rest) "") with false.
  rewrite has_invalid_char_app. reflexivity.
Qed.

Lemma valid_refreshTime_path (u : User) :
  Database.valid_path (refreshTime_path u)
  = negb (Database.has_invalid_char (uid u)).
Proof.
  unfold refreshTime_path.
  change (("metadata/" +:+ uid u) +:+ "/refreshTime")
    with ("metadata/" +:+ (uid u +:+ "/refreshTime")).
  rewrite valid_path_metadata, has_invalid_char_app.
  change (Database.has_invalid_char "/refreshTime") with false.
  rewrite orb_false_r. reflexivity.
Qed.

Lemma lookup_prop_absent (key : string) (props : list (string * jsval)) :
  ~ has_prop key props -> lookup_prop key props = VUndefined.
Proof.
  unfold has_prop. induction props as [|[k v] rest IH]; cbn; intros H.
  - reflexivity.
  - destruct (String.eqb_spec k key) as [E|E].
    + exfalso. apply H. left. exact E.
    + apply IH. intros Hin. apply H. right. exact Hin.
Qed.

(** The guard of the listener reads the method without applying it. *)
Lemma exists_unapplied_is_truthy (data : DataSnapshot) :
  truthy (member data "exists") = true.
Proof. reflexivity. Qed.

Lemma exec_onValue (fb : Firebase) (u : User) (data : DataSnapshot) (w : World) :
  exec fb (onValue u data) w
  = match idToken fb u true with
    | Fulfilled tok =>
        (Fulfilled tt,
         with_authState (In_ u tok) (note (awaited_getIdToken u true) w))
    | Rejected e => (Rejected e, note (awaited_getIdToken u true) w)
    end.
Proof.
  unfold onValue. rewrite exists_unapplied_is_truthy. cbn.
  destruct (idToken fb u true); reflexivity.
Qed.

Lemma exec_onAuthStateChanged_null (fb : Firebase) (w : World) :
  exec fb (onAuthStateChanged None) w = (Fulfilled tt, with_authState Out w).
Proof. reflexivity. Qed.

Lemma exec_onAuthStateChanged_user (fb : Firebase) (u : User) (w : World) :
  exec fb (onAuthStateChanged (Some u)) w
  = let w1 := note (awaited_getIdToken u false) w in
    match idToken fb u false with
    | Rejected e => (Rejected e, w1)
    | Fulfilled tok =>
        let w2 := note (awaited_getIdTokenResult u) w1 in
        match idTokenResult fb u with
        | Rejected e => (Rejected e, w2)
        | Fulfilled r =>
            if truthy (lookup_prop hasura_claims_key (claims r))
            then (Fulfilled tt, with_authState (In_ u tok) w2)
            else if Database.valid_path (refreshTime_path u)
                 then (Fulfilled tt,
                       with_listener (refreshTime_path u) (refreshOnValue u) w2)
                 else (Rejected (Database.path_error (refreshTime_path u)), w2)
        end
    end.
Proof.
  unfold onAuthStateChanged, exec. cbn.
  destruct (idToken fb u false) as [tok|e]; cbn; [|reflexivity].
  destruct (idTokenResult fb u) as [r|e]; cbn; [|reflexivity].
  destruct (truthy (lookup_prop hasura_claims_key (claims r))); [reflexivity|].
  cbn. unfold Database.ref. fold (refreshTime_path u).
  destruct (Database.valid_path (refreshTime_path u)); reflexivity.
Qed.

Lemma exec_onAuthStateChanged_registers
      (fb : Firebase) (u : User) (tok : string) (r : IdTokenResult) (w : World) :
  idToken fb u false = Fulfilled tok ->
  idTokenResult fb u = Fulfilled r ->
  truthy (lookup_prop hasura_claims_key (claims r)) = false ->
  Database.has_invalid_char (uid u) = false ->
  exec fb (onAuthStateChanged (Some u)) w
  = (Fulfilled tt,
     with_listener (refreshTime_path u) (refreshOnValue u)
       (note (awaited_getIdTokenResult u) (note (awaited_getIdToken u false) w))).
Proof.
  intros Htok Hr Hf Hv.
  rewrite exec_onAuthStateChanged_user, Htok, Hr. cbn zeta.
  rewrite Hf, valid_refreshTime_path, Hv. reflexivity.
Qed.

Lemma on_value_event_single (fb : Firebase) (u : User) (tok : string)
      (data : DataSnapshot) (w : World) :
  idToken fb u true = Fulfilled tok ->
  listeners w = [(refreshTime_path u, refreshOnValue u)] ->
  on_value_event fb (refreshTime_path u) data w
  = with_authState (In_ u tok) (note (awaited_getIdToken u true) w).
Proof.
  intros Htok Hl. unfold on_value_event. rewrite Hl. cbn [fire].
  rewrite String.eqb_refl. cbn [apply_callback].
  rewrite exec_onValue, Htok. reflexivity.
Qed.

Lemma on_value_events_single (fb : Firebase) (u : User) (tok : string)
      (datas : list DataSnapshot) :
  idToken fb u true = Fulfilled tok ->
  forall w, listeners w = [(refreshTime_path u, refreshOnValue u)] ->
    let w' := on_value_events fb (refreshTime_path u) datas w in
    listeners w' = listeners w
    /\ awaited w' = (awaited w
                     ++ repeat (awaited_getIdToken u true) (length datas))%list
    /\ (datas <> [] -> authState w' = In_ u tok).
Proof.
  intros Htok. induction datas as [|data datas IH]; intros w Hl; cbn.
  - rewrite app_nil_r. repeat split; congruence.
  - unfold on_value_events in *. cbn [fold_left].
    rewrite (on_value_event_single fb u tok data w Htok Hl).
    set (w1 := with_authState (In_ u tok) (note (awaited_getIdToken u true) w)).
    destruct (IH w1 Hl) as (H1 & H2 & H3). cbn in H1, H2, H3.
    split; [exact H1|]. split.
    + rewrite H2. cbn. rewrite <- app_assoc. reflexivity.
    + intros _. destruct datas as [|d ds]; [reflexivity|].
      apply H3. discriminate.
Qed.

(** C1, as stated, fails: claims that contain the key
    'https://hasura.io/jwt/claims' with a falsy value ([false] here) do not
    make the state 'in'. The handler tests the value, not the presence of the
    key: it leaves the state as it was and registers the refresh listener. *)
Lemma C1_claims_with_falsy_value_not_signed_in :
  has_prop hasura_claims_key falsy_claims
  /\ exec (firebase_with_claims falsy_claims)
          (onAuthStateChanged (Some sample_user)) initial
     = (Fulfilled tt,
        {| authState := Loading;
           listeners := [("metadata/u1/refreshTime", refreshOnValue sample_user)];
           console := [];
           awaited := [awaited_getIdToken sample_user false;
                       awaited_getIdTokenResult sample_user] |}).
Proof.
  split.
  - unfold has_prop, falsy_claims. cbn. auto.
  - vm_compute. reflexivity.
Qed.

(** C1, amended. On an auth-state change Auth sets the status 'in' only
    together with a user object and a JWT carrying the Hasura custom claims as
    a truthy value. With a signed-in user whose id token and id token result
    resolve, if the claims hold a truthy value under
    'https://hasura.io/jwt/claims' the state becomes
    { status: 'in', user, token } at once; otherwise (the key absent, or its
    value falsy) the handler does not set the state, and the state becomes 'in'
    only through the refresh listener, after its forced getIdToken(true). With
    no user the state becomes { status: 'out' }. A run of the handler ends in
    a state 'in' only if that state was there before or the handler found the
    truthy claim. *)
Theorem C1_in_only_with_user_and_token (fb : Firebase) (w : World) :
  exec fb (onAuthStateChanged None) w = (Fulfilled tt, with_authState Out w)
  /\ (forall u tok r,
        idToken fb u false = Fulfilled tok ->
        idTokenResult fb u = Fulfilled r ->
        let w2 := note (awaited_getIdTokenResult u)
                       (note (awaited_getIdToken u false) w) in
        (truthy (lookup_prop hasura_claims_key (claims r)) = true ->
           exec fb (onAuthStateChanged (Some u)) w
           = (Fulfilled tt, with_authState (In_ u tok) w2))
        /\ (truthy (lookup_prop hasura_claims_key (claims r)) = false ->
              authState (snd (exec fb (onAuthStateChanged (Some u)) w))
              = authState w))
  /\ (forall u data w' u' t',
        authState (snd (exec fb (apply_callback (refreshOnValue u) data) w'))
        = In_ u' t' ->
        authState w' = In_ u' t'
        \/ (u' = u
            /\ idToken fb u true = Fulfilled t'
            /\ awaited (snd (exec fb (apply_callback (refreshOnValue u) data) w'))
               = (awaited w' ++ [awaited_getIdToken u true])%list))
  /\ (forall ou u' t',
        authState (snd (exec fb (onAuthStateChanged ou) w)) = In_ u' t' ->
        authState w = In_ u' t'
        \/ (ou = Some u'
            /\ idToken fb u' false = Fulfilled t'
            /\ exists r, idTokenResult fb u' = Fulfilled r
                         /\ truthy (lookup_prop hasura_claims_key (claims r)) = true)).
Proof.
  split; [reflexivity|]. split; [|split].
  - intros u tok r Htok Hr w2. rewrite exec_onAuthStateChanged_user, Htok, Hr.
    cbn zeta. fold w2. split; intros ->; [reflexivity|].
    destruct (Database.valid_path (refreshTime_path u)); reflexivity.
  - intros u data w' u' t'. cbn [apply_callback]. rewrite exec_onValue.
    destruct (idToken fb u true) as [tok'|e]; cbn; [|auto].
    intros [= <- <-]. right. auto.
  - intros [u|] u' t'.
    + rewrite exec_onAuthStateChanged_user. cbn zeta.
      destruct (idToken fb u false) as [tok|e] eqn:Htok; [|cbn; auto].
      destruct (idTokenResult fb u) as [r|e] eqn:Hr; [|cbn; auto].
      destruct (truthy (lookup_prop hasura_claims_key (claims r))) eqn:Ht; cbn.
      * intros [= <- <-]. right. repeat split; eauto.
      * destruct (Database.valid_path (refreshTime_path u)); cbn; auto.
    + cbn. discriminate.
Qed.

(** C3, as stated, fails for a uid the database rejects in a path. For the
    user with uid 'a.b', whose claims do not contain the Hasura key,
    [ref('metadata/a.b/refreshTime')] throws: the handler rejects with that
    error and registers no listener, so no refresh loop runs. *)
Lemma C3_uid_with_dot_registers_nothing :
  ~ has_prop hasura_claims_key plain_claims
  /\ exec (firebase_with_claims plain_claims)
          (onAuthStateChanged (Some dotted_user)) initial
     = (Rejected (Database.path_error "metadata/a.b/refreshTime"),
        {| authState := Loading;
           listeners := [];
           console := [];
           awaited := [awaited_getIdToken dotted_user false;
                       awaited_getIdTokenResult dotted_user] |}).
Proof.
  split.
  - unfold has_prop, plain_claims, hasura_claims_key. cbn.
    intros [H|[]]. discriminate.
  - vm_compute. reflexivity.
Qed.

(** C3, amended. When the id token of a signed-in user does not contain the
    Hasura claims and the uid holds none of the characters a database path
    may not hold ('.', '#', '$', '[', ']' and the control characters), the
    handler registers a listener for 'value' events on
    'metadata/{uid}/refreshTime' and leaves the state alone. On each value
    event whose snapshot exists the listener forces a token refresh with
    getIdToken(true) and sets authState to { status: 'in', user, token } with
    the refreshed token; the listener stays registered, so this goes on event
    after event. *)
Theorem C3_refresh_listener_on_refreshTime
        (fb : Firebase) (w : World) (u : User) (tok tok' : string)
        (r : IdTokenResult) :
  idToken fb u false = Fulfilled tok ->
  idTokenResult fb u = Fulfilled r ->
  ~ has_prop hasura_claims_key (claims r) ->
  Database.has_invalid_char (uid u) = false ->
  idToken fb u true = Fulfilled tok' ->
  let w1 := snd (exec fb (onAuthStateChanged (Some u)) w) in
  refreshTime_path u = ("metadata/" +:+ uid u) +:+ "/refreshTime"
  /\ listeners w1
     = (listeners w ++ [(refreshTime_path u, refreshOnValue u)])%list
  /\ authState w1 = authState w
  /\ (forall data w2,
        exists_ data = true ->
        exec fb (apply_callback (refreshOnValue u) data) w2
        = (Fulfilled tt,
           with_authState (In_ u tok') (note (awaited_getIdToken u true) w2)))
  /\ (forall datas,
        listeners w = [] ->
        Forall (fun data => exists_ data = true) datas ->
        let w3 := on_value_events fb (refreshTime_path u) datas w1 in
        listeners w3 = listeners w1
        /\ awaited w3 = (awaited w1
                         ++ repeat (awaited_getIdToken u true) (length datas))%list
        /\ (datas <> [] -> authState w3 = In_ u tok')).
Proof.
  intros Htok Hr Habs Hvalid Htok' w1.
  assert (E : exec fb (onAuthStateChanged (Some u)) w
              = (Fulfilled tt,
                 with_listener (refreshTime_path u) (refreshOnValue u)
                   (note (awaited_getIdTokenResult u)
                      (note (awaited_getIdToken u false) w)))).
  { apply (exec_onAuthStateChanged_registers fb u tok r w Htok Hr); [|exact Hvalid].
    rewrite (lookup_prop_absent _ _ Habs). reflexivity. }
  subst w1. rewrite E. cbn [snd].
  split; [reflexivity|]. split; [reflexivity|]. split; [reflexivity|]. split.
  - intros data w2 _. cbn [apply_callback]. rewrite exec_onValue, Htok'. reflexivity.
  - intros datas Hnil _. apply on_value_events_single; [exact Htok'|].
    cbn. rewrite Hnil. reflexivity.
Qed.

Lemma C3_witness :
  let fb := firebase_with_claims plain_claims in
  let w1 := snd (exec fb (onAuthStateChanged (Some sample_user)) initial) in
  refreshTime_path sample_user = ("metadata/" +:+ uid sample_user) +:+ "/refreshTime"
  /\ listeners w1
     = (listeners initial
        ++ [(refreshTime_path sample_user, refreshOnValue sample_user)])%list
  /\ authState w1 = authState initial
  /\ (forall data w2,
        exists_ data = true ->
        exec fb (apply_callback (refreshOnValue sample_user) data) w2
        = (Fulfilled tt,
           with_authState (In_ sample_user "jwt2")
             (note (awaited_getIdToken sample_user true) w2)))
  /\ (forall datas,
        listeners initial = [] ->
        Forall (fun data => exists_ data = true) datas ->
        let w3 := on_value_events fb (refreshTime_path sample_user) datas w1 in
        listeners w3 = listeners w1
        /\ awaited w3
           = (awaited w1
              ++ repeat (awaited_getIdToken sample_user true) (length datas))%list
        /\ (datas <> [] -> authState w3 = In_ sample_user "jwt2")).
Proof.
  apply (C3_refresh_listener_on_refreshTime
           (firebase_with_claims plain_claims) initial sample_user "jwt" "jwt2"
           {| result_token := "jwt"; claims := plain_claims |}).
  - reflexivity.
  - reflexivity.
  - unfold has_prop, plain_claims, hasura_claims_key. cbn.
    intros [H|[]]. discriminate.
  - reflexivity.
  - reflexivity.
Defined.

(** C8. The guard [if (!data.exists) return] of the refresh listener never
    fires: [exists] is a method of the snapshot, and read without being
    applied it is a function, which is truthy. So every value event, also one
    whose snapshot holds no data (for which [data.exists()] would be false),
    goes on to getIdToken(true), and once that resolves sets authState to
    { status: 'in', user, token }. *)
Theorem C8_exists_guard_never_fires (data : DataSnapshot) :
  member data "exists" = VFun "exists"
  /\ negb (truthy (member data "exists")) = false
  /\ (forall fb u w,
        exec fb (onValue u data) w
        = match idToken fb u true with
          | Fulfilled tok =>
              (Fulfilled tt,
               with_authState (In_ u tok) (note (awaited_getIdToken u true) w))
          | Rejected e => (Rejected e, note (awaited_getIdToken u true) w)
          end)
  /\ exists_ empty_snapshot = false
  /\ (forall fb u w tok,
        idToken fb u true = Fulfilled tok ->
        authState (snd (exec fb (onValue u empty_snapshot) w)) = In_ u tok
        /\ awaited (snd (exec fb (onValue u empty_snapshot) w))
           = (awaited w ++ [awaited_getIdToken u true])%list).
Proof.
  split; [reflexivity|]. split; [reflexivity|]. split; [|split].
  - intros fb u w. apply exec_onValue.
  - reflexivity.
  - intros fb u w tok Htok. rewrite exec_onValue, Htok. split; reflexivity.
Qed.

(** C10. signOut is not atomic on authState. Its synchronous part sets
    { status: 'loading' } and stops at the await of firebase's signOut. If
    that resolves, the state is set to { status: 'out' }. If it rejects, the
    reason is logged, nothing is thrown, and the state is left at
    { status: 'loading' } whatever it was before signOut; in that state Auth
    renders no content. *)
Theorem C10_signOut_leaves_loading_on_failure (fb : Firebase) (w : World) :
  (exists k,
      exec_sync signOut w = (Suspended auth_signOut k, with_authState Loading w)
      /\ (forall w', exec fb (k (Fulfilled tt)) w'
                     = (Fulfilled tt, with_authState Out w'))
      /\ (forall reason w', exec fb (k (Rejected reason)) w'
                            = (Fulfilled tt, with_log reason w')))
  /\ (signedOut fb = Fulfilled tt ->
        exec fb signOut w
        = (Fulfilled tt,
           with_authState Out (note awaited_signOut (with_authState Loading w))))
  /\ (forall reason,
        signedOut fb = Rejected reason ->
        exec fb signOut w
        = (Fulfilled tt,
           with_log reason (note awaited_signOut (with_authState Loading w)))
        /\ authState (snd (exec fb signOut w)) = Loading
        /\ console (snd (exec fb signOut w)) = (console w ++ [reason])%list)
  /\ Auth Loading = Element "div" [("className", "auth")] [null].
Proof.
  split; [|split; [|split]].
  - eexists. split; [reflexivity|]. split; intros; reflexivity.
  - intros H. unfold exec, signOut. cbn. rewrite H. reflexivity.
  - intros reason H. unfold exec, signOut. cbn. rewrite H. cbn.
    repeat split; reflexivity.
  - reflexivity.
Qed.

Example onAuthStateChanged_with_hasura_claims :
  exec (firebase_with_claims
          [(hasura_claims_key, VObj [("x-hasura-default-role", VStr "user")])])
       (onAuthStateChanged (Some sample_user)) initial
  = (Fulfilled tt,
     {| authState := In_ sample_user "jwt"; listeners := []; console := [];
        awaited := [awaited_getIdToken sample_user false;
                    awaited_getIdTokenResult sample_user] |}).
Proof. reflexivity. Qed.

Example value_event_without_data :
  on_value_event (firebase_with_claims plain_claims) "metadata/u1/refreshTime"
    empty_snapshot
    (snd (exec (firebase_with_claims plain_claims)
               (onAuthStateChanged (Some sample_user)) initial))
  = {| authState := In_ sample_user "jwt2";
       listeners := [("metadata/u1/refreshTime", refreshOnValue sample_user)];
       console := [];
       awaited := [awaited_getIdToken sample_user false;
                   awaited_getIdTokenResult sample_user;
                   awaited_getIdToken sample_user true] |}.
Proof. reflexivity. Qed.

Example signOut_failure_from_signed_in :
  authState
    (snd (exec (firebase_sign_out_fails (VStr "network"))
               signOut
               {| authState := In_ sample_user "jwt"; listeners := [];
                  console := []; awaited := [] |}))
  = Loading.
Proof. reflexivity. Qed.

End AuthProperties.

(* ===================================================================== *)
(** ** Properties of the realtime database and of processSignUp *)
(* ===================================================================== *)

Section FunctionsProperties.
Import Database Functions ExpectedFunctions.

Lemma segments_not_nil (s : string) : segments s <> [].
Proof.
  induction s as [|c rest IH]; cbn; [discriminate|].
  destruct (Ascii.eqb c "/"); [discriminate|].
  destruct (segments rest); discriminate.
Qed.

Lemma segments_slash (a b : string) :
  segments (a +:+ String "/" b) = (segments a ++ segments b)%list.
Proof.
  induction a as [|c rest IH].
  - reflexivity.
  - change (String c rest +:+ String "/" b) with (String c (rest +:+ String "/" b)).
    cbn [segments]. rewrite IH. destruct (Ascii.eqb c "/"); [reflexivity|].
    pose proof (segments_not_nil rest) as Hne.
    destruct (segments rest) as [|seg segs]; [contradiction|reflexivity].
Qed.

(** A child location: the location of [path + '/refreshTime'] is the child
    'refreshTime' of the location of [path]. *)
Lemma ref_refreshTime (path : string) :
  location (path +:+ "/refreshTime") = (location path ++ ["refreshTime"])%list.
Proof.
  unfold location. change "/refreshTime" with (String "/" "refreshTime").
  rewrite segments_slash, filter_app. reflexivity.
Qed.

(** [ref('metadata/' + uid)] throws exactly when the uid holds an invalid
    character. *)
Lemma ref_metadata (id : string) :
  ref ("metadata/" +:+ id)
  = if has_invalid_char id then Rejected (path_error ("metadata/" +:+ id))
    else Fulfilled {| ref_path := "metadata/" +:+ id |}.
Proof.
  unfold ref. rewrite valid_path_metadata.
  destruct (has_invalid_char id); reflexivity.
Qed.

Lemma lookup_set_prop (key : string) (v : jsval) (props : list (string * jsval)) :
  lookup_prop key (set_prop key v props) = v.
Proof.
  induction props as [|[k w] rest IH]; cbn.
  - rewrite String.eqb_refl. reflexivity.
  - destruct (String.eqb k key) eqn:E; cbn; rewrite E; [reflexivity|exact IH].
Qed.

Lemma db_set_defined (loc : list string) (v tree : jsval) :
  v <> VUndefined -> db_set loc v tree <> VUndefined.
Proof. destruct loc; cbn; [auto|discriminate]. Qed.

Lemma db_get_set (loc : list string) (v : jsval) :
  v <> VUndefined -> forall tree, db_get loc (db_set loc v tree) = v.
Proof.
  intros Hv. induction loc as [|key below IH]; intros tree; cbn.
  - reflexivity.
  - rewrite lookup_set_prop.
    set (props := match tree with VObj props => props | _ => [] end).
    pose proof (db_set_defined below v (lookup_prop key props) Hv) as Hd.
    pose proof (IH (lookup_prop key props)) as Hg.
    destruct (db_set below v (lookup_prop key props)); try exact Hg.
    contradiction.
Qed.

Lemma db_get_null (loc : list string) : db_get loc VNull = VNull.
Proof. destruct loc; reflexivity. Qed.

Lemma db_get_app (l1 l2 : list string) :
  forall tree, db_get (l1 ++ l2) tree = db_get l2 (db_get l1 tree).
Proof.
  induction l1 as [|key below IH]; intros tree; cbn.
  - reflexivity.
  - destruct tree; try (symmetry; apply db_get_null).
    destruct (lookup_prop key props); try apply IH.
    symmetry; apply db_get_null.
Qed.

(** After [ref(path).set({ refreshTime: time })], the location
    [path + '/refreshTime'] holds [time]. *)
Lemma refreshTime_written (path : string) (time : Z) (tree : jsval) :
  db_get (location (path +:+ "/refreshTime"))
         (db_set (location path) (refresh_record time) tree)
  = VNum time.
Proof.
  rewrite ref_refreshTime, db_get_app, db_get_set by discriminate.
  reflexivity.
Qed.

Lemma exec_processSignUp (f : Faults) (user : User) (w : World) :
  exec f (processSignUp user) w
  = let w1 := with_claims (uid user) (customClaims user)
                          (note (claims_call user) w) in
    match setCustomUserClaims_fails f with
    | Some reason => (Fulfilled tt, with_log reason (note (claims_call user) w))
    | None =>
        if has_invalid_char (uid user)
        then (Fulfilled tt, with_log (path_error ("metadata/" +:+ uid user)) w1)
        else
          let w2 := note (write_call user (clock w)) w1 in
          match set_fails f with
          | Some reason => (Fulfilled tt, with_log reason w2)
          | None =>
              (Fulfilled tt,
               with_value ("metadata/" +:+ uid user) (refresh_record (clock w)) w2)
          end
    end.
Proof.
  unfold exec, processSignUp, catch_, then_. cbn -[ref].
  destruct (setCustomUserClaims_fails f); cbn -[ref]; [reflexivity|].
  rewrite ref_metadata.
  destruct (has_invalid_char (uid user)); cbn; [reflexivity|].
  destruct (set_fails f); reflexivity.
Qed.

(** C7. For every created user, processSignUp calls setCustomUserClaims with
    the claims { 'https://hasura.io/jwt/claims': { 'x-hasura-default-role':
    'user', 'x-hasura-allowed-roles': ['user'], 'x-hasura-user-id': uid } }.
    Only when that call has fulfilled (the claims are set) does it go on to
    write { refreshTime: now } at 'metadata/{uid}', after which
    'metadata/{uid}/refreshTime' holds the current timestamp. Any error in the
    chain (a rejection of either call, or the throw of ref on a uid the
    database rejects in a path, in which case set is never called) is logged
    and the function's promise fulfils all the same. *)
Theorem C7_processSignUp_claims_then_refreshTime
        (f : Faults) (user : User) (w : World) :
  let w' := snd (exec f (processSignUp user) w) in
  let w1 := with_claims (uid user) (customClaims user) (note (claims_call user) w) in
  customClaims user
  = VObj [ ("https://hasura.io/jwt/claims",
            VObj [ ("x-hasura-default-role", VStr "user");
                   ("x-hasura-allowed-roles", VArr [VStr "user"]);
                   ("x-hasura-user-id", VStr (uid user)) ]) ]
  /\ fst (exec f (processSignUp user) w) = Fulfilled tt
  /\ (forall reason,
        setCustomUserClaims_fails f = Some reason ->
        w' = with_log reason (note (claims_call user) w))
  /\ (setCustomUserClaims_fails f = None ->
        customUserClaims w' !! uid user = Some (customClaims user)
        /\ (has_invalid_char (uid user) = true ->
              w' = with_log (path_error ("metadata/" +:+ uid user)) w1)
        /\ (has_invalid_char (uid user) = false ->
              (forall reason,
                  set_fails f = Some reason ->
                  w' = with_log reason (note (write_call user (clock w)) w1))
              /\ (set_fails f = None ->
                    w' = with_value ("metadata/" +:+ uid user)
                           (refresh_record (clock w))
                           (note (write_call user (clock w)) w1)
                    /\ db_get (location (("metadata/" +:+ uid user) +:+ "/refreshTime"))
                              (database w')
                       = VNum (clock w))))
  /\ (exists calls,
        called w' = (called w ++ claims_call user :: calls)%list
        /\ (calls = [] \/ calls = [write_call user (clock w)])
        /\ (calls <> [] ->
            setCustomUserClaims_fails f = None
            /\ has_invalid_char (uid user) = false)).
Proof.
  intros w' w1. subst w' w1. rewrite exec_processSignUp. cbn zeta.
  split; [reflexivity|].
  destruct (setCustomUserClaims_fails f) as [e1|] eqn:E1.
  - split; [reflexivity|]. split.
    + intros reason [= <-]. reflexivity.
    + split; [discriminate|].
      exists []. split; [reflexivity|]. split; [left; reflexivity|].
      intros H. contradiction.
  - destruct (has_invalid_char (uid user)) eqn:Ev.
    + split; [reflexivity|]. split; [discriminate|]. split.
      * intros _. split; [apply lookup_insert_eq|]. split; [reflexivity|discriminate].
      * exists []. split; [reflexivity|]. split; [left; reflexivity|].
        intros H. contradiction.
    + destruct (set_fails f) as [e2|] eqn:E2.
      * split; [reflexivity|]. split; [discriminate|]. split.
        -- intros _. split; [apply lookup_insert_eq|]. split; [discriminate|].
           intros _. split; [intros reason [= <-]; reflexivity|discriminate].
        -- exists [write_call user (clock w)]. cbn.
           split; [rewrite <- app_assoc; reflexivity|].
           split; [right; reflexivity|]. auto.
      * split; [reflexivity|]. split; [discriminate|]. split.
        -- intros _. split; [apply lookup_insert_eq|]. split; [discriminate|].
           intros _. split; [discriminate|].
           intros _. split; [reflexivity|]. apply refreshTime_written.
        -- exists [write_call user (clock w)]. cbn.
           split; [rewrite <- app_assoc; reflexivity|].
           split; [right; reflexivity|]. auto.
Qed.

Example ref_sample :
  ref "metadata/u1/refreshTime" = Fulfilled {| ref_path := "metadata/u1/refreshTime" |}
  /\ location "metadata/u1/refreshTime" = ["metadata"; "u1"; "refreshTime"]
  /\ ref "metadata/a.b" = Rejected (path_error "metadata/a.b")
  /\ ref "" = Rejected (path_error "")
  /\ ref ".info/connected" = Fulfilled {| ref_path := ".info/connected" |}.
Proof. repeat split; reflexivity. Qed.

Example processSignUp_sample_dotted_uid :
  let '(result, w') :=
    exec no_faults (processSignUp {| uid := "a.b"; displayName := None |})
         fresh_project in
  result = Fulfilled tt
  /\ customUserClaims w' !! "a.b"
     = Some (customClaims {| uid := "a.b"; displayName := None |})
  /\ database w' = VNull
  /\ console w' = [path_error "metadata/a.b"]
  /\ called w' = [claims_call {| uid := "a.b"; displayName := None |}].
Proof. vm_compute. repeat split; reflexivity. Qed.

Example processSignUp_sample :
  let '(result, w') := exec no_faults (processSignUp new_user) fresh_project in
  result = Fulfilled tt
  /\ customUserClaims w' !! "u1" = Some (customClaims new_user)
  /\ database w'
     = VObj [("metadata", VObj [("u1", VObj [("refreshTime", VNum 1000)])])]
  /\ console w' = []
  /\ called w' = [claims_call new_user; write_call new_user 1000].
Proof. vm_compute. repeat split; reflexivity. Qed.

Example processSignUp_sample_failure :
  let '(result, w') :=
    exec (claims_fault (VStr "auth/internal-error")) (processSignUp new_user)
         fresh_project in
  result = Fulfilled tt
  /\ customUserClaims w' !! "u1" = None
  /\ database w' = VNull
  /\ console w' = [VStr "auth/internal-error"]
  /\ called w' = [claims_call new_user].
Proof. vm_compute. repeat split; reflexivity. Qed.

End FunctionsProperties.

(* ===================================================================== *)
(** ** Further properties of App.js *)
(* ===================================================================== *)

Section AppFurther.
Import AppJs Expected ExpectedFlow.

(** X1. A request through the link of [App] ends at the WebSocket link, at
    the HTTP link, or fails with what [getMainDefinition] threw on its query;
    in the last case no link sends it. *)
Theorem request_ends_at_a_link_or_fails
        (getMainDefinition : DocumentNode -> settled DefinitionNode)
        (a : AuthState) (op : Operation) :
  (request (link getMainDefinition a) op = Fulfilled (wsLink a)
   \/ request (link getMainDefinition a) op = Fulfilled (httpLink a)
   \/ exists e, request (link getMainDefinition a) op = Rejected e)
  /\ (forall e, getMainDefinition (query op) = Rejected e <->
                request (link getMainDefinition a) op = Rejected e).
Proof.
  unfold link, test. cbn [request].
  destruct (getMainDefinition (query op)) as [def|e0] eqn:E; cbn [and_then].
  - destruct (String.eqb (kind def) "OperationDefinition"
              && match operation def with
                 | Some o => String.eqb o "subscription"
                 | None => false
                 end); cbn [request].
    + split; [left; reflexivity|]. intros e; split; discriminate.
    + split; [right; left; reflexivity|]. intros e; split; discriminate.
  - split; [right; right; eauto|]. intros e; split; intros [= <-]; reflexivity.
Qed.

Lemma apollo_returns_sole_operation : returns_sole_operation apollo_getMainDefinition.
Proof.
  intros op name vars sel Hop. cbn in Hop.
  destruct Hop as [<-|[<-|[<-|[]]]]; reflexivity.
Qed.

(** X2. When [getMainDefinition] returns the operation of a one-operation
    document, the component's own documents go where they should: the
    subscription [App] issues goes through the WebSocket link, every document
    a button is bound to goes through the HTTP link, and both links send the
    headers of the current authState. *)
Theorem own_documents_are_routed
        (getMainDefinition : DocumentNode -> settled DefinitionNode)
        (a : AuthState) :
  returns_sole_operation getMainDefinition ->
  request (link getMainDefinition a)
          {| query := subscription (App getMainDefinition a);
             op_variables := variables (App getMainDefinition a) |}
  = Fulfilled (wsLink a)
  /\ (forall doc vars,
        In doc button_documents ->
        request (link getMainDefinition a) {| query := doc; op_variables := vars |}
        = Fulfilled (httpLink a))
  /\ sent_headers (wsLink a) = Some (headers a)
  /\ sent_headers (httpLink a) = Some (headers a).
Proof.
  intros Hgmd. split; [|split; [|split; reflexivity]].
  - unfold link, test. cbn [request query App subscription].
    destruct (isIn a); unfold PL_WITH_LOVE_SUB, PL_SUB;
      rewrite Hgmd by (cbn; auto); reflexivity.
  - intros doc vars Hdoc. unfold link, test. cbn [request query].
    unfold button_documents in Hdoc. cbn in Hdoc.
    destruct Hdoc as [<-|[<-|[<-|[]]]];
      unfold VOTE_MUTATION, LOVE_MUTATION, UNLOVE_MUTATION;
      rewrite Hgmd by (cbn; auto); reflexivity.
Qed.

Lemma own_documents_are_routed_witness :
  request (link apollo_getMainDefinition (In_ sample_user "jwt"))
          {| query := subscription (App apollo_getMainDefinition (In_ sample_user "jwt"));
             op_variables := variables (App apollo_getMainDefinition (In_ sample_user "jwt")) |}
  = Fulfilled (wsLink (In_ sample_user "jwt"))
  /\ (forall doc vars,
        In doc button_documents ->
        request (link apollo_getMainDefinition (In_ sample_user "jwt"))
                {| query := doc; op_variables := vars |}
        = Fulfilled (httpLink (In_ sample_user "jwt")))
  /\ sent_headers (wsLink (In_ sample_user "jwt"))
     = Some (headers (In_ sample_user "jwt"))
  /\ sent_headers (httpLink (In_ sample_user "jwt"))
     = Some (headers (In_ sample_user "jwt")).
Proof.
  apply (own_documents_are_routed apollo_getMainDefinition (In_ sample_user "jwt")).
  apply apollo_returns_sole_operation.
Defined.

Lemma array_map_fulfilled_iff {A B : Type} (f : A -> settled B) (l : list A) :
  (exists ys, array_map f l = Fulfilled ys)
  <-> Forall (fun x => exists y, f x = Fulfilled y) l.
Proof.
  induction l as [|x rest IH]; cbn.
  - split; [constructor|eauto].
  - split.
    + intros [ys H]. destruct (f x) as [y|e] eqn:Ex; [|discriminate]. cbn in H.
      destruct (array_map f rest) as [ys'|e] eqn:Er; [|discriminate].
      constructor; [eauto|]. apply IH. eauto.
    + intros H. inversion H as [|? ? [y Hy] Hrest]; subst.
      apply IH in Hrest. destruct Hrest as [ys Hys].
      rewrite Hy, Hys. cbn. eauto.
Qed.

Lemma renderLanguage_fulfilled_iff (isIn : bool) (pl : ProgrammingLanguage) :
  (exists item, renderLanguage isIn pl = Fulfilled item)
  <-> (isIn = true -> is_Some (lovedLanguagesByname_aggregate pl)).
Proof.
  destruct isIn.
  - destruct (lovedLanguagesByname_aggregate pl) as [agg|] eqn:E.
    + rewrite (renderLanguage_in pl agg E). split; eauto.
    + destruct (renderLanguage_in_undefined pl E) as [e He]. rewrite He. split.
      * intros [item H]. discriminate.
      * intros H. destruct (H eq_refl) as [x Hx]. discriminate.
  - rewrite renderLanguage_out. split; [discriminate|eauto].
Qed.

(** X3. The list renders for a signed-in user if and only if every row
    carries the per-user aggregate: one row without it makes the whole render
    throw, whatever the other rows are. For a user who is not signed in the
    list renders for any rows. With data undefined, and neither loading nor an
    error, the render throws a TypeError. *)
Theorem list_renders_iff_rows_have_aggregate (rows : list ProgrammingLanguage) :
  ((exists node, renderSubscription true (ready rows) = Fulfilled node)
   <-> Forall (fun pl => is_Some (lovedLanguagesByname_aggregate pl)) rows)
  /\ (exists node, renderSubscription false (ready rows) = Fulfilled node)
  /\ (forall isIn,
        renderSubscription isIn {| data := None; loading := false; error := None |}
        = Rejected (TypeError "Cannot read property 'programming_language' of undefined")).
Proof.
  assert (Hrender : forall isIn,
             (exists node, renderSubscription isIn (ready rows) = Fulfilled node)
             <-> Forall (fun pl => isIn = true ->
                                   is_Some (lovedLanguagesByname_aggregate pl)) rows).
  { intros isIn.
    pose proof (array_map_fulfilled_iff (renderLanguage isIn) rows) as Hmap.
    unfold renderSubscription, ready. cbn. split.
    - intros [node H].
      destruct (array_map (renderLanguage isIn) rows) as [items|e];
        [|discriminate].
      assert (Hall : Forall (fun pl => exists item,
                                 renderLanguage isIn pl = Fulfilled item) rows)
        by (apply Hmap; eauto).
      eapply List.Forall_impl; [|exact Hall].
      intros pl. apply renderLanguage_fulfilled_iff.
    - intros Hall.
      assert (Hex : exists items, array_map (renderLanguage isIn) rows = Fulfilled items).
      { apply Hmap. eapply List.Forall_impl; [|exact Hall].
        intros pl. apply renderLanguage_fulfilled_iff. }
      destruct Hex as [items ->]. cbn. eauto. }
  split; [|split].
  - rewrite Hrender. split; intros H; (eapply List.Forall_impl; [|exact H]);
      cbn; intros pl; auto.
  - apply Hrender. apply List.Forall_forall. intros pl _ H. discriminate.
  - reflexivity.
Qed.

Lemma renderLanguage_shape (isIn : bool) (pl : ProgrammingLanguage) (item : Node) :
  renderLanguage isIn pl = Fulfilled item ->
  key_of item = Some (name pl)
  /\ mutations_of item
     = VOTE_MUTATION :: (if isIn then
                           match lovedLanguagesByname_aggregate pl with
                           | Some agg => if count (aggregate agg) =? 1
                                         then [UNLOVE_MUTATION] else [LOVE_MUTATION]
                           | None => []
                           end
                         else []).
Proof.
  unfold renderLanguage. intros H.
  destruct isIn; [destruct (lovedLanguagesByname_aggregate pl) as [agg|];
                  [destruct (count (aggregate agg) =? 1)|]|];
    cbn in H; try discriminate; injection H as <-; split; reflexivity.
Qed.

(** X4. A rendered list has one item per row, in the order of the rows, each
    keyed by the name of its row; it binds one mutation per row for a user who
    is not signed in and two per row for a signed-in user. *)
Theorem list_items_follow_rows
        (isIn : bool) (rows : list ProgrammingLanguage) (node : Node) :
  renderSubscription isIn (ready rows) = Fulfilled node ->
  exists items,
    node = pl_list items
    /\ map key_of items = map (fun pl => Some (name pl)) rows
    /\ length (mutations_of node)
       = ((if isIn then 2 else 1) * length rows)%nat.
Proof.
  unfold renderSubscription, ready. cbn.
  destruct (array_map (renderLanguage isIn) rows) as [items|e] eqn:E; [|discriminate].
  cbn. intros [= <-]. exists items. split; [reflexivity|].
  cbn [mutations_of pl_list].
  revert items E. induction rows as [|pl rows IH]; intros items E; cbn in E.
  - injection E as <-. split; [reflexivity|]. cbn. lia.
  - destruct (renderLanguage isIn pl) as [item|e] eqn:Eitem; [|discriminate].
    cbn in E.
    destruct (array_map (renderLanguage isIn) rows) as [rest|e] eqn:Erest;
      [|discriminate].
    cbn in E. injection E as <-.
    destruct (IH rest eq_refl) as [Hkeys Hlen].
    pose proof (renderLanguage_shape isIn pl item Eitem) as [Hkey Hmut].
    split.
    + cbn. rewrite Hkey, Hkeys. reflexivity.
    + cbn [List.flat_map]. rewrite length_app, Hlen, Hmut.
      assert (Hagg : isIn = true -> is_Some (lovedLanguagesByname_aggregate pl)).
      { apply renderLanguage_fulfilled_iff. eauto. }
      destruct isIn.
      * destruct (Hagg eq_refl) as [agg ->].
        destruct (count (aggregate agg) =? 1); cbn; lia.
      * cbn. lia.
Qed.

Lemma list_items_follow_rows_witness :
  exists items,
    pl_list [ list_item (plain_row "Coq" 7) null; list_item (plain_row "OCaml" 5) null ]
    = pl_list items
    /\ map key_of items
       = map (fun pl => Some (name pl)) [plain_row "Coq" 7; plain_row "OCaml" 5]
    /\ length (mutations_of
                 (pl_list [ list_item (plain_row "Coq" 7) null;
                            list_item (plain_row "OCaml" 5) null ]))
       = ((if false then 2 else 1) * length [plain_row "Coq" 7; plain_row "OCaml" 5])%nat.
Proof.
  apply (list_items_follow_rows false [plain_row "Coq" 7; plain_row "OCaml" 5]).
  reflexivity.
Defined.

End AppFurther.

(* ===================================================================== *)
(** ** Further properties of Auth.js *)
(* ===================================================================== *)

Section AuthFurther.
Import AuthJs Expected ExpectedAuth ExpectedFlow.

(** X5. signInWithGoogle never throws and never touches authState or the
    listeners: when the popup resolves nothing else happens (the state changes
    later, through onAuthStateChanged), and when it rejects the reason is
    logged. *)
Theorem signInWithGoogle_only_logs (fb : Firebase) (w : World) :
  fst (exec fb signInWithGoogle w) = Fulfilled tt
  /\ authState (snd (exec fb signInWithGoogle w)) = authState w
  /\ listeners (snd (exec fb signInWithGoogle w)) = listeners w
  /\ awaited (snd (exec fb signInWithGoogle w))
     = (awaited w ++ [awaited_signInWithPopup])%list
  /\ console (snd (exec fb signInWithGoogle w))
     = match popup fb with
       | Fulfilled _ => console w
       | Rejected reason => (console w ++ [reason])%list
       end.
Proof.
  unfold exec, signInWithGoogle. cbn.
  destruct (popup fb) as [[]|reason]; cbn; repeat split; reflexivity.
Qed.

(** X6. Token failures are not caught. If getIdToken() or getIdTokenResult()
    rejects, the auth-state handler rejects with the same reason and leaves
    authState, the listeners and the console as they were; from the initial
    state the component therefore keeps rendering no content. If the forced
    getIdToken(true) of the refresh listener rejects, the listener rejects and
    leaves authState as it was. *)
Theorem token_failures_are_not_caught
        (fb : Firebase) (u : User) (w : World) (reason : jsval) :
  (idToken fb u false = Rejected reason
   \/ (exists tok, idToken fb u false = Fulfilled tok)
      /\ idTokenResult fb u = Rejected reason) ->
  let w' := snd (exec fb (onAuthStateChanged (Some u)) w) in
  fst (exec fb (onAuthStateChanged (Some u)) w) = Rejected reason
  /\ authState w' = authState w
  /\ listeners w' = listeners w
  /\ console w' = console w
  /\ (authState w = Loading ->
      Auth (authState w') = Element "div" [("className", "auth")] [null])
  /\ (forall data w2,
        idToken fb u true = Rejected reason ->
        fst (exec fb (onValue u data) w2) = Rejected reason
        /\ authState (snd (exec fb (onValue u data) w2)) = authState w2
        /\ console (snd (exec fb (onValue u data) w2)) = console w2).
Proof.
  intros H w'. subst w'. rewrite exec_onAuthStateChanged_user. cbn zeta.
  assert (Hl : forall data w2,
             idToken fb u true = Rejected reason ->
             fst (exec fb (onValue u data) w2) = Rejected reason
             /\ authState (snd (exec fb (onValue u data) w2)) = authState w2
             /\ console (snd (exec fb (onValue u data) w2)) = console w2).
  { intros data w2 Hf. rewrite exec_onValue, Hf. repeat split; reflexivity. }
  destruct H as [H|[[tok Htok] Hr]].
  - rewrite H. cbn.
    split; [reflexivity|]. split; [reflexivity|]. split; [reflexivity|].
    split; [reflexivity|]. split; [|exact Hl].
    intros ->. reflexivity.
  - rewrite Htok, Hr. cbn.
    split; [reflexivity|]. split; [reflexivity|]. split; [reflexivity|].
    split; [reflexivity|]. split; [|exact Hl].
    intros ->. reflexivity.
Qed.

Lemma token_failures_are_not_caught_witness :
  let fb := firebase_token_fails (VStr "auth/network-request-failed") in
  let reason := VStr "auth/network-request-failed" in
  let w' := snd (exec fb (onAuthStateChanged (Some sample_user)) initial) in
  fst (exec fb (onAuthStateChanged (Some sample_user)) initial) = Rejected reason
  /\ authState w' = authState initial
  /\ listeners w' = listeners initial
  /\ console w' = console initial
  /\ (authState initial = Loading ->
      Auth (authState w') = Element "div" [("className", "auth")] [null])
  /\ (forall data w2,
        idToken fb sample_user true = Rejected reason ->
        fst (exec fb (onValue sample_user data) w2) = Rejected reason
        /\ authState (snd (exec fb (onValue sample_user data) w2)) = authState w2
        /\ console (snd (exec fb (onValue sample_user data) w2)) = console w2).
Proof.
  apply (token_failures_are_not_caught
           (firebase_token_fails (VStr "auth/network-request-failed"))
           sample_user initial (VStr "auth/network-request-failed")).
  left. reflexivity.
Defined.

(** X7. One run of the auth-state handler does one of three things and never
    two of them: it rejects and changes nothing; it sets authState (to 'out'
    for no user, to 'in' with that user otherwise) and registers nothing; or it
    registers one listener, for that user's refreshTime location, and leaves
    authState alone. It never writes to the console and never removes a
    listener. *)
Theorem handler_sets_state_or_registers_listener
        (fb : Firebase) (ou : option User) (w : World) :
  let r := fst (exec fb (onAuthStateChanged ou) w) in
  let w' := snd (exec fb (onAuthStateChanged ou) w) in
  console w' = console w
  /\ ((exists e, r = Rejected e)
        /\ authState w' = authState w /\ listeners w' = listeners w
      \/ r = Fulfilled tt
         /\ listeners w' = listeners w
         /\ match ou with
            | None => authState w' = Out
            | Some u => exists tok, authState w' = In_ u tok
            end
      \/ r = Fulfilled tt
         /\ authState w' = authState w
         /\ exists u, ou = Some u
                      /\ listeners w'
                         = (listeners w
                            ++ [(refreshTime_path u, refreshOnValue u)])%list).
Proof.
  destruct ou as [u|]; cbn zeta.
  - rewrite exec_onAuthStateChanged_user. cbn zeta.
    destruct (idToken fb u false) as [tok|e]; [|cbn; split; [reflexivity|left; eauto]].
    destruct (idTokenResult fb u) as [r|e]; [|cbn; split; [reflexivity|left; eauto]].
    destruct (truthy (lookup_prop hasura_claims_key (claims r))); cbn.
    + split; [reflexivity|]. right. left. eauto.
    + destruct (Database.valid_path (refreshTime_path u)); cbn.
      * split; [reflexivity|]. right. right. eauto.
      * split; [reflexivity|]. left. eauto.
  - cbn. split; [reflexivity|]. right. left. auto.
Qed.

Lemma auth_changes_register (fb : Firebase) (u : User) (tok : string)
      (r : IdTokenResult) :
  idToken fb u false = Fulfilled tok ->
  idTokenResult fb u = Fulfilled r ->
  truthy (lookup_prop hasura_claims_key (claims r)) = false ->
  Database.has_invalid_char (uid u) = false ->
  forall n w,
    listeners (auth_changes fb (repeat (Some u) n) w)
    = (listeners w ++ repeat (refreshTime_path u, refreshOnValue u) n)%list
    /\ authState (auth_changes fb (repeat (Some u) n) w) = authState w.
Proof.
  intros Htok Hr Hf Hv. induction n as [|n IH]; intros w.
  - cbn. rewrite app_nil_r. auto.
  - change (auth_changes fb (repeat (Some u) (S n)) w)
      with (auth_changes fb (repeat (Some u) n)
              (snd (exec fb (onAuthStateChanged (Some u)) w))).
    rewrite (exec_onAuthStateChanged_registers fb u tok r w Htok Hr Hf Hv).
    cbn [snd].
    destruct (IH (with_listener (refreshTime_path u) (refreshOnValue u)
                    (note (awaited_getIdTokenResult u)
                       (note (awaited_getIdToken u false) w)))) as [Hl Ha].
    rewrite Hl, Ha. cbn. rewrite <- app_assoc. auto.
Qed.

Lemma fire_repeat (fb : Firebase) (u : User) (tok : string) (data : DataSnapshot) :
  idToken fb u true = Fulfilled tok ->
  forall n w,
    awaited (fire fb (refreshTime_path u) data
                  (repeat (refreshTime_path u, refreshOnValue u) n) w)
    = (awaited w ++ repeat (awaited_getIdToken u true) n)%list.
Proof.
  intros Htok. induction n as [|n IH]; intros w; cbn [repeat fire].
  - rewrite app_nil_r. reflexivity.
  - rewrite String.eqb_refl. cbn [apply_callback].
    rewrite exec_onValue, Htok. cbn [snd]. rewrite IH. cbn.
    rewrite <- app_assoc. reflexivity.
Qed.

(** X8. Listeners pile up. For a uid the database accepts in a path, every
    auth-state change whose token has no truthy Hasura claim registers one more
    listener on the same location; none is ever removed or reused. After n
    such changes there are n listeners, and one value event then forces n
    token refreshes. *)
Theorem listeners_accumulate
        (fb : Firebase) (u : User) (tok tok' : string) (r : IdTokenResult)
        (w : World) (n : nat) (data : DataSnapshot) :
  idToken fb u false = Fulfilled tok ->
  idTokenResult fb u = Fulfilled r ->
  truthy (lookup_prop hasura_claims_key (claims r)) = false ->
  Database.has_invalid_char (uid u) = false ->
  idToken fb u true = Fulfilled tok' ->
  listeners w = [] ->
  let wn := auth_changes fb (repeat (Some u) n) w in
  listeners wn = repeat (refreshTime_path u, refreshOnValue u) n
  /\ awaited (on_value_event fb (refreshTime_path u) data wn)
     = (awaited wn ++ repeat (awaited_getIdToken u true) n)%list.
Proof.
  intros Htok Hr Hf Hv Htok' Hnil wn.
  destruct (auth_changes_register fb u tok r Htok Hr Hf Hv n w) as [Hl _].
  fold wn in Hl. rewrite Hnil in Hl. cbn in Hl. split; [exact Hl|].
  unfold on_value_event. rewrite Hl. apply (fire_repeat fb u tok' data Htok').
Qed.

Lemma listeners_accumulate_witness :
  let fb := firebase_with_claims plain_claims in
  let wn := auth_changes fb (repeat (Some sample_user) 3) initial in
  listeners wn = repeat (refreshTime_path sample_user, refreshOnValue sample_user) 3
  /\ awaited (on_value_event fb (refreshTime_path sample_user) empty_snapshot wn)
     = (awaited wn ++ repeat (awaited_getIdToken sample_user true) 3)%list.
Proof.
  apply (listeners_accumulate (firebase_with_claims plain_claims) sample_user
           "jwt" "jwt2" {| result_token := "jwt"; claims := plain_claims |}
           initial 3 empty_snapshot); reflexivity.
Defined.

(** X9. signOut does not detach the refresh listener: the listeners after
    signOut are those before it, whether firebase's sign-out resolves or
    rejects. So after a sign-out that set { status: 'out' }, a value event on
    the user's refreshTime location whose forced refresh resolves sets
    authState back to { status: 'in', user, token }. *)
Theorem refresh_listener_survives_signOut
        (fb : Firebase) (u : User) (tok : string) (data : DataSnapshot) (w : World) :
  listeners w = [(refreshTime_path u, refreshOnValue u)] ->
  signedOut fb = Fulfilled tt ->
  idToken fb u true = Fulfilled tok ->
  let w1 := snd (exec fb signOut w) in
  authState w1 = Out
  /\ listeners w1 = listeners w
  /\ authState (on_value_event fb (refreshTime_path u) data w1) = In_ u tok.
Proof.
  intros Hl Hout Htok w1.
  assert (E : w1 = with_authState Out
                     (note awaited_signOut (with_authState Loading w))).
  { subst w1. unfold exec, signOut. cbn. rewrite Hout. reflexivity. }
  rewrite E. split; [reflexivity|]. split; [reflexivity|].
  rewrite (on_value_event_single fb u tok data _ Htok); [reflexivity|exact Hl].
Qed.

Lemma refresh_listener_survives_signOut_witness :
  let fb := firebase_with_claims plain_claims in
  let w := snd (exec fb (onAuthStateChanged (Some sample_user)) initial) in
  let w1 := snd (exec fb signOut w) in
  authState w1 = Out
  /\ listeners w1 = listeners w
  /\ authState (on_value_event fb (refreshTime_path sample_user) empty_snapshot w1)
     = In_ sample_user "jwt2".
Proof.
  apply (refresh_listener_survives_signOut (firebase_with_claims plain_claims)
           sample_user "jwt2" empty_snapshot
           (snd (exec (firebase_with_claims plain_claims)
                      (onAuthStateChanged (Some sample_user)) initial)));
    reflexivity.
Defined.

(** X10. What Auth shows. While the status is 'loading' it renders no button
    and no App. With status 'in' it renders exactly one button, 'Sign out',
    bound to signOut; with any other status exactly one button, 'Sign in with
    Google', bound to signInWithGoogle. Whenever the status is not 'loading'
    it renders exactly one App, with the very authState it holds, so App never
    receives a loading state from Auth. *)
Theorem Auth_renders_one_button_and_App (a : AuthState) :
  (status a = "loading" ->
     buttons_of (Auth a) = [] /\ apps_of (Auth a) = [])
  /\ (status a = "in" ->
        buttons_of (Auth a) = [(onSignOut, "Sign out")] /\ apps_of (Auth a) = [a])
  /\ (status a <> "loading" -> status a <> "in" ->
        buttons_of (Auth a) = [(onSignInWithGoogle, "Sign in with Google")]
        /\ apps_of (Auth a) = [a])
  /\ (forall a', In a' (apps_of (Auth a)) -> a' = a /\ status a' <> "loading").
Proof.
  destruct a as [| |u t]; cbn.
  - split; [auto|]. split; [discriminate|]. split; [intros H; contradiction|].
    intros a' [].
  - split; [discriminate|]. split; [discriminate|]. split; [auto|].
    intros a' [<-|[]]. split; [reflexivity|discriminate].
  - split; [discriminate|]. split.
    + intros _. destruct (displayName u); auto.
    + split; [intros _ H; contradiction|].
      destruct (displayName u); cbn; intros a' [<-|[]];
        (split; [reflexivity|discriminate]).
Qed.

End AuthFurther.

(* ===================================================================== *)
(** ** Further properties of processSignUp *)
(* ===================================================================== *)

Section FunctionsFurther.
Import Database Functions ExpectedFunctions ExpectedServer.

(** X11. The write replaces the user's metadata node. For a uid the database
    accepts in a path, after a run without failures 'metadata/{uid}' holds
    exactly { refreshTime: now }: whatever was stored there before is gone,
    and any child other than 'refreshTime' reads as no data. *)
Theorem processSignUp_replaces_metadata (f : Faults) (user : User) (w : World) :
  has_invalid_char (uid user) = false ->
  setCustomUserClaims_fails f = None ->
  set_fails f = None ->
  let db := database (snd (exec f (processSignUp user) w)) in
  db_get (location ("metadata/" +:+ uid user)) db = refresh_record (clock w)
  /\ (forall child,
        child <> "refreshTime" ->
        db_get (location ("metadata/" +:+ uid user) ++ [child]) db = VNull).
Proof.
  intros Hv H1 H2 db. subst db. rewrite exec_processSignUp, H1, Hv, H2. cbn.
  assert (E : db_get (location ("metadata/" +:+ uid user))
                (db_set (location ("metadata/" +:+ uid user))
                        (refresh_record (clock w)) (database w))
              = refresh_record (clock w))
    by (apply db_get_set; discriminate).
  split; [exact E|].
  intros child Hc. rewrite db_get_app, E.
  unfold refresh_record. cbn [db_get lookup_prop].
  destruct (String.eqb_spec "refreshTime" child) as [Heq|Hne];
    [congruence|reflexivity].
Qed.

Lemma processSignUp_replaces_metadata_witness :
  let db := database (snd (exec no_faults (processSignUp new_user)
                                project_with_metadata)) in
  db_get (location ("metadata/" +:+ uid new_user)) db
  = refresh_record (clock project_with_metadata)
  /\ (forall child,
        child <> "refreshTime" ->
        db_get (location ("metadata/" +:+ uid new_user) ++ [child]) db = VNull).
Proof.
  apply (processSignUp_replaces_metadata no_faults new_user project_with_metadata);
    reflexivity.
Defined.

(** X12. processSignUp touches nothing but its own user. The custom claims
    of every other uid are as before, whatever fails; the database changes
    only when nothing in the chain fails; the log grows by the first error of
    the chain (the reason of a failing call, or the error ref throws on a uid
    with an invalid character) and by nothing else. *)
Theorem processSignUp_touches_only_its_user (f : Faults) (user : User) (w : World) :
  let w' := snd (exec f (processSignUp user) w) in
  (forall other, other <> uid user ->
                 customUserClaims w' !! other = customUserClaims w !! other)
  /\ (logged f user <> [] -> database w' = database w)
  /\ console w' = (console w ++ logged f user)%list
  /\ (length (logged f user) <= 1)%nat.
Proof.
  intros w'. subst w'. rewrite exec_processSignUp. unfold logged. cbn zeta.
  destruct (setCustomUserClaims_fails f) as [e1|]; cbn.
  - repeat split; auto.
  - assert (Hother : forall other, other <> uid user ->
              <[uid user:=customClaims user]> (customUserClaims w) !! other
              = customUserClaims w !! other).
    { intros other Hne. apply lookup_insert_ne. congruence. }
    destruct (has_invalid_char (uid user)); cbn.
    + repeat split; auto.
    + destruct (set_fails f) as [e2|]; cbn.
      * repeat split; auto.
      * split; [exact Hother|].
        split; [intros H; contradiction|]. split; [|lia].
        rewrite app_nil_r. reflexivity.
Qed.

(** X13. For a uid the database accepts in a path, running the function
    again for the same user (a retry, at a later time), both runs without
    failure, leaves the custom claims as the first run set them, moves
    refreshTime to the later time and logs nothing. *)
Theorem processSignUp_again (f : Faults) (user : User) (w : World) (later : Z) :
  has_invalid_char (uid user) = false ->
  setCustomUserClaims_fails f = None ->
  set_fails f = None ->
  let w1 := snd (exec f (processSignUp user) w) in
  let w2 := snd (exec f (processSignUp user) (at_time later w1)) in
  customUserClaims w2 = customUserClaims w1
  /\ db_get (location (("metadata/" +:+ uid user) +:+ "/refreshTime")) (database w2)
     = VNum later
  /\ console w2 = console w.
Proof.
  intros Hv H1 H2 w1 w2. subst w2 w1.
  rewrite !exec_processSignUp, H1, Hv, H2. cbn.
  split; [apply insert_insert_eq|]. split; [apply refreshTime_written|reflexivity].
Qed.

Lemma processSignUp_again_witness :
  let w1 := snd (exec no_faults (processSignUp new_user) fresh_project) in
  let w2 := snd (exec no_faults (processSignUp new_user) (at_time 5000 w1)) in
  customUserClaims w2 = customUserClaims w1
  /\ db_get (location (("metadata/" +:+ uid new_user) +:+ "/refreshTime")) (database w2)
     = VNum 5000
  /\ console w2 = console fresh_project.
Proof.
  apply (processSignUp_again no_faults new_user fresh_project 5000); reflexivity.
Defined.

End FunctionsFurther.

(* ===================================================================== *)
(** ** The cloud function and the client together *)
(* ===================================================================== *)

Section ClientAndFunction.
Import Database AuthJs Expected ExpectedAuth ExpectedFlow ExpectedFunctions.

(** X15. A token that carries the claims processSignUp sets for the user
    signs the user in at once: the auth-state handler sets
    { status: 'in', user, token } and registers no listener. The userId
    variable App then sends with its subscription is the x-hasura-user-id of
    those claims. *)
Theorem function_claims_sign_in_at_once
        (getMainDefinition : DocumentNode -> settled DefinitionNode)
        (fb : Firebase) (u : User) (tok : string) (r : IdTokenResult) (w : World) :
  idToken fb u false = Fulfilled tok ->
  idTokenResult fb u = Fulfilled r ->
  lookup_prop hasura_claims_key (claims r)
  = lookup_prop hasura_claims_key (object_props (Functions.customClaims u)) ->
  let w' := snd (exec fb (onAuthStateChanged (Some u)) w) in
  authState w' = In_ u tok
  /\ listeners w' = listeners w
  /\ AppJs.variables (AppJs.App getMainDefinition (authState w'))
     = VObj [("userId",
              lookup_prop "x-hasura-user-id"
                (object_props (lookup_prop hasura_claims_key (claims r))))].
Proof.
  intros Htok Hr Hc w'. subst w'.
  rewrite exec_onAuthStateChanged_user, Htok, Hr. cbn zeta. rewrite Hc.
  cbn. repeat split; reflexivity.
Qed.

Lemma function_claims_sign_in_at_once_witness :
  let fb := firebase_with_claims
              (("sub", VStr "u1") :: object_props (Functions.customClaims sample_user)) in
  let r := {| result_token := "jwt";
              claims := ("sub", VStr "u1")
                        :: object_props (Functions.customClaims sample_user) |} in
  let w' := snd (exec fb (onAuthStateChanged (Some sample_user)) initial) in
  authState w' = In_ sample_user "jwt"
  /\ listeners w' = listeners initial
  /\ AppJs.variables (AppJs.App apollo_getMainDefinition (authState w'))
     = VObj [("userId",
              lookup_prop "x-hasura-user-id"
                (object_props (lookup_prop hasura_claims_key (claims r))))].
Proof.
  apply (function_claims_sign_in_at_once apollo_getMainDefinition
           (firebase_with_claims
              (("sub", VStr "u1") :: object_props (Functions.customClaims sample_user)))
           sample_user "jwt"
           {| result_token := "jwt";
              claims := ("sub", VStr "u1")
                        :: object_props (Functions.customClaims sample_user) |}
           initial); reflexivity.
Defined.

(** X16. The first sign-in of a new user, end to end, for a uid the
    database accepts in a path. The client's token has no Hasura claims yet,
    so the handler registers the refresh listener. Once
    processSignUp has run without failure, the user's custom claims are set and
    the location the client listens at holds the timestamp, so the snapshot of
    the value event exists; on that event the listener forces a refresh and
    the client ends in { status: 'in', user, token } with the refreshed
    token. *)
Theorem first_sign_in_of_a_new_user
        (fb : Firebase) (f : Functions.Faults) (u : User) (tok tok' : string)
        (r : IdTokenResult) (project : Functions.World) :
  idToken fb u false = Fulfilled tok ->
  idTokenResult fb u = Fulfilled r ->
  ~ has_prop hasura_claims_key (claims r) ->
  has_invalid_char (uid u) = false ->
  idToken fb u true = Fulfilled tok' ->
  Functions.setCustomUserClaims_fails f = None ->
  Functions.set_fails f = None ->
  let w1 := snd (exec fb (onAuthStateChanged (Some u)) initial) in
  let project' := snd (Functions.exec f (Functions.processSignUp u) project) in
  let data := snapshot_at (Functions.database project') (refreshTime_path u) in
  authState w1 = Loading
  /\ Functions.customUserClaims project' !! uid u = Some (Functions.customClaims u)
  /\ snapshot_value data = VNum (Functions.clock project)
  /\ exists_ data = true
  /\ authState (on_value_event fb (refreshTime_path u) data w1) = In_ u tok'.
Proof.
  intros Htok Hr Habs Hv Htok' Hf1 Hf2 w1 project' data.
  assert (E1 : w1 = with_listener (refreshTime_path u) (refreshOnValue u)
                      (note (awaited_getIdTokenResult u)
                         (note (awaited_getIdToken u false) initial))).
  { subst w1.
    rewrite (exec_onAuthStateChanged_registers fb u tok r initial Htok Hr);
      [reflexivity| |exact Hv].
    rewrite (lookup_prop_absent _ _ Habs). reflexivity. }
  assert (E2 : project'
               = Functions.with_value ("metadata/" +:+ uid u)
                   (refresh_record (Functions.clock project))
                   (Functions.note (write_call u (Functions.clock project))
                      (Functions.with_claims (uid u) (Functions.customClaims u)
                         (Functions.note (claims_call u) project)))).
  { subst project'. rewrite exec_processSignUp, Hf1, Hv, Hf2. reflexivity. }
  assert (Ev : snapshot_value data = VNum (Functions.clock project)).
  { subst data. unfold snapshot_at, refreshTime_path. cbn [snapshot_value].
    rewrite E2. cbn [Functions.database Functions.with_value].
    apply refreshTime_written. }
  split; [rewrite E1; reflexivity|].
  split; [rewrite E2; apply lookup_insert_eq|].
  split; [exact Ev|].
  split; [unfold exists_; rewrite Ev; reflexivity|].
  rewrite (on_value_event_single fb u tok' data w1 Htok'); [reflexivity|].
  rewrite E1. reflexivity.
Qed.

Lemma first_sign_in_of_a_new_user_witness :
  let fb := firebase_with_claims plain_claims in
  let w1 := snd (exec fb (onAuthStateChanged (Some sample_user)) initial) in
  let project' := snd (Functions.exec no_faults (Functions.processSignUp sample_user)
                                      fresh_project) in
  let data := snapshot_at (Functions.database project') (refreshTime_path sample_user) in
  authState w1 = Loading
  /\ Functions.customUserClaims project' !! uid sample_user
     = Some (Functions.customClaims sample_user)
  /\ snapshot_value data = VNum (Functions.clock fresh_project)
  /\ exists_ data = true
  /\ authState (on_value_event fb (refreshTime_path sample_user) data w1)
     = In_ sample_user "jwt2".
Proof.
  apply (first_sign_in_of_a_new_user (firebase_with_claims plain_claims) no_faults
           sample_user "jwt" "jwt2"
           {| result_token := "jwt"; claims := plain_claims |} fresh_project).
  - reflexivity.
  - reflexivity.
  - unfold has_prop, plain_claims, hasura_claims_key. cbn.
    intros [H|[]]. discriminate.
  - reflexivity.
  - reflexivity.
  - reflexivity.
  - reflexivity.
Defined.

(** X17. A uid with a character the database rejects in a path ('.', '#',
    '$', '[', ']' or a control character) never gets a refresh signal. On
    the client, when the token has no truthy Hasura claim, ref throws: the
    handler rejects with that error, registers no listener and leaves
    authState as it was. In the function, once the claims are set, ref throws
    inside the chain: the error is logged, set is never called and the
    database is left as it was. *)
Theorem invalid_uid_gets_no_refresh
        (fb : Firebase) (f : Functions.Faults) (u : User) (tok : string)
        (r : IdTokenResult) (w : World) (project : Functions.World) :
  has_invalid_char (uid u) = true ->
  idToken fb u false = Fulfilled tok ->
  idTokenResult fb u = Fulfilled r ->
  truthy (lookup_prop hasura_claims_key (claims r)) = false ->
  Functions.setCustomUserClaims_fails f = None ->
  let w' := snd (exec fb (onAuthStateChanged (Some u)) w) in
  let project' := snd (Functions.exec f (Functions.processSignUp u) project) in
  fst (exec fb (onAuthStateChanged (Some u)) w)
  = Rejected (path_error (("metadata/" +:+ uid u) +:+ "/refreshTime"))
  /\ listeners w' = listeners w
  /\ authState w' = authState w
  /\ fst (Functions.exec f (Functions.processSignUp u) project) = Fulfilled tt
  /\ Functions.customUserClaims project' !! uid u = Some (Functions.customClaims u)
  /\ Functions.console project'
     = (Functions.console project ++ [path_error ("metadata/" +:+ uid u)])%list
  /\ Functions.called project' = (Functions.called project ++ [claims_call u])%list
  /\ Functions.database project' = Functions.database project.
Proof.
  intros Hv Htok Hr Hf Hf1 w' project'. subst w' project'.
  rewrite exec_processSignUp, Hf1, Hv.
  rewrite exec_onAuthStateChanged_user, Htok, Hr. cbn zeta.
  rewrite Hf, valid_refreshTime_path, Hv. cbn.
  repeat split; try reflexivity. apply lookup_insert_eq.
Qed.

Lemma invalid_uid_gets_no_refresh_witness :
  let fb := firebase_with_claims plain_claims in
  let w' := snd (exec fb (onAuthStateChanged (Some dotted_user)) initial) in
  let project' := snd (Functions.exec no_faults (Functions.processSignUp dotted_user)
                                      fresh_project) in
  fst (exec fb (onAuthStateChanged (Some dotted_user)) initial)
  = Rejected (path_error (("metadata/" +:+ uid dotted_user) +:+ "/refreshTime"))
  /\ listeners w' = listeners initial
  /\ authState w' = authState initial
  /\ fst (Functions.exec no_faults (Functions.processSignUp dotted_user) fresh_project)
     = Fulfilled tt
  /\ Functions.customUserClaims project' !! uid dotted_user
     = Some (Functions.customClaims dotted_user)
  /\ Functions.console project'
     = (Functions.console fresh_project
        ++ [path_error ("metadata/" +:+ uid dotted_user)])%list
  /\ Functions.called project'
     = (Functions.called fresh_project ++ [claims_call dotted_user])%list
  /\ Functions.database project' = Functions.database fresh_project.
Proof.
  apply (invalid_uid_gets_no_refresh (firebase_with_claims plain_claims) no_faults
           dotted_user "jwt" {| result_token := "jwt"; claims := plain_claims |}
           initial fresh_project); reflexivity.
Defined.

End ClientAndFunction.
